(** * Least-squares fit of [lsm_project/lsm/functions.py]

    A shallow embedding of the module's functions and the properties of
    its public operations ([get_lsm_description], [get_lsm_lines],
    [get_report]).

    Numbers.  The samples and every computed quantity are Python [float]s,
    that is IEEE 754 binary64 numbers, with their rounding, their two
    zeros, their infinities and NaN: Rocq's primitive [float].  Each
    arithmetic operation of the source is one binary64 operation, in the
    order in which the source performs it.  What the interpreter does on
    top of IEEE 754 is kept: [/] raises [ZeroDivisionError] on a zero
    divisor, [**] raises [OverflowError] when a finite power is too large,
    [math.sqrt] raises [ValueError] on a negative argument, a list index
    out of range raises [IndexError]; [+], [-] and [*] never raise.  An
    [int] that the source mixes with floats (a length) is converted as
    the interpreter converts it.  The elements of the input lists are
    taken at their annotated type [float].

    Effects.  A call either returns a value or raises an exception
    ([result]).  The calls to [event_logger] write to a sink that the
    functions never read back; the functions are given first without
    them, and again with the events they log ([Logged]).  The file
    written by [get_report] goes through a write primitive that is a
    parameter. *)

From Stdlib Require Import Floats ZArith Lia String Ascii List Bool.
From Stdlib Require Import Reals Lra.
From Stdlib Require Import Decimal DecimalString DecimalN.
From Stdlib Require Uint63.
Import ListNotations.

#[local] Set Warnings "-inexact-float".

Open Scope float_scope.

(** ** Exceptions and results *)

(** The exception classes the module raises itself or lets the interpreter
    raise, each with the message it is built with. *)
Inductive exn : Type :=
| TypeError (msg : string)
| ValueError (msg : string)
| RuntimeError (msg : string)
| ZeroDivisionError
| OverflowError
| IndexError.

Inductive result (A : Type) : Type :=
| Ok (a : A)
| Raise (e : exn).

Arguments Ok {A} a.
Arguments Raise {A} e.

Definition bind {A B : Type} (m : result A) (k : A -> result B) : result B :=
  match m with
  | Ok a => k a
  | Raise e => Raise e
  end.

Declare Scope py_scope.
Delimit Scope py_scope with py.
Notation "x <- m ;; k" := (bind m (fun x => k))
  (at level 61, m at next level, right associativity) : py_scope.
Notation "' p <- m ;; k" := (bind m (fun x => match x with p => k end))
  (at level 61, p pattern, m at next level, right associativity) : py_scope.
Open Scope py_scope.

(** A list comprehension (or generator consumed at once) whose element
    expression may raise: elements are evaluated left to right and the
    first exception ends the evaluation. *)
Fixpoint comprehension {A B : Type} (f : A -> result B) (l : list A)
  : result (list B) :=
  match l with
  | [] => Ok []
  | a :: l' =>
      b <- f a ;;
      bs <- comprehension f l' ;;
      Ok (b :: bs)
  end.

(** ** Python primitives used by the module *)

(** [float(z)] for an [int] [z] of magnitude below [2^63], rounded to
    nearest, ties to even. *)
Definition float_of_Z (z : Z) : float :=
  if (z <? 0)%Z then - PrimFloat.of_uint63 (Uint63.of_Z (- z))
  else PrimFloat.of_uint63 (Uint63.of_Z z).

(** [a / b]: the divisor is compared with zero (either zero) before the
    division; an overflowing or invalid quotient is [inf] or [nan]. *)
Definition truediv (a b : float) : result float :=
  if PrimFloat.is_zero b then Raise ZeroDivisionError else Ok (a / b).

(** [x ** 2] for a float [x], as CPython's [float_pow] goes: a NaN is
    returned as it is, an infinity gives [inf], a zero gives [0.0];
    otherwise the C library's [pow(|x|, 2.0)], taken correctly rounded,
    and [OverflowError] when that is infinite. *)
Definition pow2 (x : float) : result float :=
  if PrimFloat.is_nan x then Ok x
  else if PrimFloat.is_infinity x then Ok PrimFloat.infinity
  else if PrimFloat.is_zero x then Ok 0
  else
    let r := PrimFloat.abs x * PrimFloat.abs x in
    if PrimFloat.is_infinity r then Raise OverflowError else Ok r.

(** [math.sqrt]: the C [sqrt], and [ValueError] when it gives a NaN for
    an argument that is not one.  So [sqrt(nan)] is [nan] and
    [sqrt(-0.0)] is [-0.0]. *)
Definition math_sqrt (x : float) : result float :=
  let r := PrimFloat.sqrt x in
  if PrimFloat.is_nan r && negb (PrimFloat.is_nan x)
  then Raise (ValueError "math domain error")
  else Ok r.

(** [sum(l)]: starts from 0 and adds the elements from the left, one
    binary64 addition each (CPython up to 3.11; later versions add with a
    compensation term). *)
Definition sum (l : list float) : float := fold_left PrimFloat.add l 0.

(** [range(n)] *)
Definition range (n : nat) : list nat := seq 0 n.

(** [l[i]] for an index [i >= 0]. *)
Definition getitem {A : Type} (l : list A) (i : nat) : result A :=
  match nth_error l i with
  | Some x => Ok x
  | None => Raise IndexError
  end.

(** [len(l)] where the source uses it as a number among floats. *)
Definition len {A : Type} (l : list A) : float :=
  float_of_Z (Z.of_nat (length l)).

(** An element of an input list.  The lists are annotated
    [list[float]]: an element that passes [isinstance(el, Real)] is
    taken to be a [float], any binary64 value, NaN, the infinities and
    [-0.0] included; [NonReal] is any object that does not pass. *)
Inductive value : Type :=
| Real (x : float)
| NonReal.

Definition isinstance_Real (el : value) : bool :=
  match el with
  | Real _ => true
  | NonReal => false
  end.

(** The number held by a validated element. *)
Definition as_real (el : value) : float :=
  match el with
  | Real x => x
  | NonReal => 0
  end.

(** ** Enumerations and models *)

(** Modelled from the spec: [lsm_project/lsm/enumerations.py] is not among
    the sources; [MismatchStrategies] is the closed enumeration of the two
    members the module matches on, [FALL] (the spec's FAIL) and [CUT] (the
    spec's TRUNCATE). *)
Inductive MismatchStrategies : Type :=
| FALL
| CUT.

(** What a caller can pass as [mismatch_strategy]: a member of the
    enumeration or any other object. *)
Inductive strategy_arg : Type :=
| Member (s : MismatchStrategies)
| NotMember.

(** Modelled from the spec: [lsm_project/lsm/models.py] is not among the
    sources; the three records have the fields the module builds them
    with. *)
Record LSMStatistics : Type := mkLSMStatistics {
  abscissa_mean : float;
  ordinate_mean : float;
  product_mean : float;
  abs_squared_mean : float
}.

Record LSMDescription : Type := mkLSMDescription {
  incline : float;
  shift : float;
  incline_error : float;
  shift_error : float
}.

Record LSMLines : Type := mkLSMLines {
  abscissa : list float;
  ordinates : list value;
  line_predicted : list float;
  line_above : list float;
  line_under : list float
}.

(** What a caller can pass as [lsm_description]: [None], an
    [LSMDescription], or any other object. *)
Inductive description_arg : Type :=
| PyNone
| Description (d : LSMDescription)
| NotDescription.

(** The double-quote character. *)
Definition dquote : string := String (ascii_of_nat 34) EmptyString.

(** The spec's names for the failures the module raises itself. *)
Definition InputValueError : exn := ValueError "Some values are not real".
Definition LengthError : exn :=
  ValueError "Arguments lenghts must be more than 2".
Definition MismatchError : exn :=
  RuntimeError "Lenghts of the arguments are not equal".
Definition PolicyError : exn :=
  ValueError ("Unknown data in argument " ++ dquote ++ "mismatch_data"
              ++ dquote)%string.
Definition TypeMismatchError : exn :=
  TypeError "Incorrect data in lms_description".

(** The failure [math.sqrt] raises. *)
Definition MathDomainError : exn := ValueError "math domain error".

(** ** The module's functions *)

Definition _is_valid_measurments (measurments : list value) : bool :=
  forallb isinstance_Real measurments.

Definition _process_mismatch {A : Type} (abscissa ordinates : list A)
    (mismatch_strategy : strategy_arg) : result (list A * list A) :=
  if (length abscissa <? 3)%nat || (length ordinates <? 3)%nat then
    Raise LengthError
  else if negb (length abscissa =? length ordinates)%nat then
    match mismatch_strategy with
    | Member FALL => Raise MismatchError
    | Member CUT =>
        let min_lenght := Nat.min (length abscissa) (length ordinates) in
        Ok (firstn min_lenght abscissa, firstn min_lenght ordinates)
    | NotMember => Raise PolicyError
    end
  else Ok (abscissa, ordinates).

Definition _get_lsm_statistics (abscissa ordinates : list float)
  : result LSMStatistics :=
  let data_lenght := length abscissa in
  abscissa_mean <- truediv (sum abscissa) (len abscissa) ;;
  ordinates_mean <- truediv (sum ordinates) (len abscissa) ;;
  products <- comprehension
                (fun i => x <- getitem abscissa i ;;
                          y <- getitem ordinates i ;;
                          Ok (x * y))
                (range data_lenght) ;;
  product_mean <- truediv (sum products) (len abscissa) ;;
  squares <- comprehension
               (fun i => x <- getitem abscissa i ;; pow2 x)
               (range data_lenght) ;;
  abs_squared_mean <- truediv (sum squares) (len abscissa) ;;
  Ok {| abscissa_mean := abscissa_mean;
        ordinate_mean := ordinates_mean;
        product_mean := product_mean;
        abs_squared_mean := abs_squared_mean |}.

(** The arguments are lists, so [list(abscissa)] and [list(ordinates)]
    copy them and the [TypeError] handler is not entered.  Once both lists
    are validated every element is a float, read by [as_real].  The
    source writes [stats.abscissa_mean**2] three times, and each is
    evaluated where it stands. *)
Definition get_lsm_description (abscissa ordinates : list value)
    (mismatch_strategy : strategy_arg) : result LSMDescription :=
  if negb (_is_valid_measurments abscissa)
     || negb (_is_valid_measurments ordinates)
  then Raise InputValueError
  else
    '(abscissa, ordinates) <-
      _process_mismatch abscissa ordinates mismatch_strategy ;;
    let abscissa := map as_real abscissa in
    let ordinates := map as_real ordinates in
    let data_lenght := length abscissa in
    stats <- _get_lsm_statistics abscissa ordinates ;;
    mean_squared <- pow2 (abscissa_mean stats) ;;
    incline <- truediv
      (product_mean stats - abscissa_mean stats * ordinate_mean stats)
      (abs_squared_mean stats - mean_squared) ;;
    let shift := ordinate_mean stats - incline * abscissa_mean stats in
    weight <- truediv 1 (float_of_Z (Z.of_nat data_lenght - 2)) ;;
    residuals <- comprehension
                   (fun i => y <- getitem ordinates i ;;
                             x <- getitem abscissa i ;;
                             pow2 (y - incline * x - shift))
                   (range data_lenght) ;;
    let ordinates_error := weight * sum residuals in
    q1 <- truediv ordinates_error (len abscissa) ;;
    mean_squared <- pow2 (abscissa_mean stats) ;;
    q2 <- truediv q1 (abs_squared_mean stats - mean_squared) ;;
    incline_error <- math_sqrt q2 ;;
    p1 <- truediv (ordinates_error * abs_squared_mean stats)
            (len abscissa) ;;
    mean_squared <- pow2 (abscissa_mean stats) ;;
    p2 <- truediv p1 (abs_squared_mean stats - mean_squared) ;;
    shift_error <- math_sqrt p2 ;;
    Ok {| incline := incline;
          shift := shift;
          incline_error := incline_error;
          shift_error := shift_error |}.

(** [get_lsm_lines] does arithmetic on the elements of [abscissa] as they
    come, so they are taken at their annotated type; [ordinates] is only
    handed on, and may hold anything. *)
Definition get_lsm_lines (abscissa : list float) (ordinates : list value)
    (lsm_description : description_arg) : result LSMLines :=
  lsm_description <-
    match lsm_description with
    | PyNone =>
        d <- get_lsm_description (map Real abscissa) ordinates
               (Member FALL) ;;
        Ok (Description d)
    | _ => Ok lsm_description
    end ;;
  match lsm_description with
  | Description d =>
      let line_predicted :=
        map (fun x => incline d * x + shift d) abscissa in
      let line_above :=
        map (fun x => (incline d + incline_error d) * x
                      + shift d + shift_error d) abscissa in
      let line_under :=
        map (fun x => (incline d - incline_error d) * x
                      + shift d - shift_error d) abscissa in
      Ok {| abscissa := abscissa;
            ordinates := ordinates;
            line_predicted := line_predicted;
            line_above := line_above;
            line_under := line_under |}
  | _ => Raise TypeMismatchError
  end.

(** *** Text formatting *)

Definition PRECISION : nat := 3.

Definition newline : string := String (ascii_of_nat 10) EmptyString.

Fixpoint replicate (n : nat) (c : ascii) : string :=
  match n with
  | O => EmptyString
  | S n' => String c (replicate n' c)
  end.

(** [s.center(width, fillchar)], with CPython's placement of an odd
    margin. *)
Definition center (s : string) (width : nat) (fillchar : ascii) : string :=
  if (width <=? String.length s)%nat then s
  else
    let marg := (width - String.length s)%nat in
    let left := (marg / 2 + Nat.land (Nat.land marg width) 1)%nat in
    (replicate left fillchar ++ s ++ replicate (marg - left) fillchar)%string.

(** The quotient [a / d] of two integers, [d > 0], rounded to the nearest
    integer, ties to even. *)
Definition round_half_even_div (a d : Z) : Z :=
  let q := (a / d)%Z in
  let r := (a mod d)%Z in
  if (2 * r <? d)%Z then q
  else if (d <? 2 * r)%Z then (q + 1)%Z
  else if Z.even q then q else (q + 1)%Z.

(** [m * 2^e * 10^p] rounded to the nearest integer, ties to even: the
    magnitude of a finite float, in units of the [p]-th decimal place. *)
Definition scaled_round (p : nat) (m : positive) (e : Z) : Z :=
  if (0 <=? e)%Z then (Z.pos m * 2 ^ e * 10 ^ Z.of_nat p)%Z
  else round_half_even_div (Z.pos m * 10 ^ Z.of_nat p) (2 ^ (- e)).

Definition digit (d : Z) : ascii := ascii_of_nat (48 + Z.to_nat d).

(** The [p] low decimal digits of [n], most significant first. *)
Fixpoint low_digits (p : nat) (n : Z) : string :=
  match p with
  | O => EmptyString
  | S p' => (low_digits p' (n / 10) ++ String (digit (n mod 10)) EmptyString)%string
  end.

Definition decimal (n : Z) : string :=
  NilZero.string_of_uint (N.to_uint (Z.to_N n)).

(** [n] units of the [p]-th decimal place in fixed notation. *)
Definition fixed (p : nat) (n : Z) : string :=
  (decimal (n / 10 ^ Z.of_nat p)
     ++ match p with O => EmptyString | S _ => "."%string end
     ++ low_digits p (n mod 10 ^ Z.of_nat p))%string.

Definition minus (s : bool) : string :=
  if s then "-"%string else EmptyString.

(** [format(x, '.pf')] for a float [x]: [nan], [inf] or [-inf]; otherwise
    a minus sign when the sign bit is set (so also for [-0.0]), then the
    exact value of [|x|] rounded to [p] decimal places, ties to even. *)
Definition format_f (p : nat) (x : float) : string :=
  match Prim2SF x with
  | S754_nan => "nan"%string
  | S754_infinity s => (minus s ++ "inf")%string
  | S754_zero s => (minus s ++ fixed p 0)%string
  | S754_finite s m e => (minus s ++ fixed p (scaled_round p m e))%string
  end.

Definition report_text (lsm_description : LSMDescription) : string :=
  String.concat newline
    [ center "LSM computing result" 100 "=";
      EmptyString;
      ("[INFO]: incline: "
         ++ format_f PRECISION (incline lsm_description) ++ ";")%string;
      ("[INFO]: shift: "
         ++ format_f PRECISION (shift lsm_description) ++ ";")%string;
      ("[INFO]: incline error: "
         ++ format_f PRECISION (incline_error lsm_description) ++ ";")%string;
      ("[INFO]: shift error: "
         ++ format_f PRECISION (shift_error lsm_description) ++ ";")%string;
      EmptyString;
      center EmptyString 100 "=" ].

Section Report.

(** The state of the files, and what
    [with open(path, 'w') as fts: fts.write(text)] does to it: the
    statement completes or raises, and leaves the files in some state
    either way.  Nothing is assumed of it. *)
Variable storage : Type.
Variable write_file : string -> string -> storage -> result unit * storage.

(** [path_to_save] is [None] or a string; [None] and the empty string are
    false in [if path_to_save:]. *)
Definition get_report (lsm_description : LSMDescription)
    (path_to_save : option string) (st : storage)
  : result string * storage :=
  let report := report_text lsm_description in
  match path_to_save with
  | None => (Ok report, st)
  | Some path =>
      if String.eqb path EmptyString then (Ok report, st)
      else
        match write_file path report st with
        | (Ok _, st') => (Ok report, st')
        | (Raise e, st') => (Raise e, st')
        end
  end.

End Report.

(** ** The quantities of the specification

    The means of the specification's section 4.3, computed as the source
    computes them: a sum from the left divided by the number of
    samples. *)


(** Elementwise combination of two paired sequences. *)
Definition pairwise {A B C : Type} (f : A -> B -> C)
    (xs : list A) (ys : list B) : list C :=
  map (fun p => f (fst p) (snd p)) (combine xs ys).

(** The numeric part of [get_lsm_description] (from [data_lenght = ...]
    to the [return]) as a function of the validated and resolved lists. *)
Definition coefficients (abscissa ordinates : list float)
  : result LSMDescription :=
  let data_lenght := length abscissa in
  stats <- _get_lsm_statistics abscissa ordinates ;;
  mean_squared <- pow2 (abscissa_mean stats) ;;
  incline <- truediv
    (product_mean stats - abscissa_mean stats * ordinate_mean stats)
    (abs_squared_mean stats - mean_squared) ;;
  let shift := ordinate_mean stats - incline * abscissa_mean stats in
  weight <- truediv 1 (float_of_Z (Z.of_nat data_lenght - 2)) ;;
  residuals <- comprehension
                 (fun i => y <- getitem ordinates i ;;
                           x <- getitem abscissa i ;;
                           pow2 (y - incline * x - shift))
                 (range data_lenght) ;;
  let ordinates_error := weight * sum residuals in
  q1 <- truediv ordinates_error (len abscissa) ;;
  mean_squared <- pow2 (abscissa_mean stats) ;;
  q2 <- truediv q1 (abs_squared_mean stats - mean_squared) ;;
  incline_error <- math_sqrt q2 ;;
  p1 <- truediv (ordinates_error * abs_squared_mean stats)
          (len abscissa) ;;
  mean_squared <- pow2 (abscissa_mean stats) ;;
  p2 <- truediv p1 (abs_squared_mean stats - mean_squared) ;;
  shift_error <- math_sqrt p2 ;;
  Ok {| incline := incline;
        shift := shift;
        incline_error := incline_error;
        shift_error := shift_error |}.

(** The real number a finite float stands for (0 for the others). *)
Definition SF2R (x : spec_float) : R :=
  match x with
  | S754_finite s m e =>
      ((if s then -1 else 1) * IZR (Z.pos m) * powerRZ 2 e)%R
  | _ => 0%R
  end.

Definition float_real (x : float) : R := SF2R (Prim2SF x).

(** ** Text predicates *)

Definition is_digit (c : ascii) : bool :=
  (48 <=? nat_of_ascii c)%nat && (nat_of_ascii c <=? 57)%nat.

Fixpoint all_digits (s : string) : bool :=
  match s with
  | EmptyString => true
  | String c s' => is_digit c && all_digits s'
  end.

(** A number written in fixed notation with [p] digits after the point:
    an optional minus sign, at least one digit, a point, [p] digits. *)
Definition fixed_notation (p : nat) (s : string) : Prop :=
  exists sign int frac : string,
    s = (sign ++ int ++ "." ++ frac)%string
    /\ (sign = EmptyString \/ sign = "-"%string)
    /\ int <> EmptyString
    /\ all_digits int = true
    /\ String.length frac = p
    /\ all_digits frac = true.

(** [sub in s] *)
Definition Substring (sub s : string) : Prop :=
  exists pre post : string, s = (pre ++ sub ++ post)%string.

(** The number written by a string of decimal digits, read from the
    left onto [acc]. *)
Fixpoint read_digits (s : string) (acc : Z) : Z :=
  match s with
  | EmptyString => acc
  | String c s' =>
      read_digits s' (10 * acc + (Z.of_nat (nat_of_ascii c) - 48))%Z
  end.

(** ** The functions with their log

    The same functions with the calls to [event_logger] kept: a call
    yields the events it sends to the logger, in order, beside what it
    returns or raises. *)

(** Modelled from the spec: [lsm_project/event_logger] is not among the
    sources; the logger is a sink that takes a severity ([info],
    [warning] or [error], the three methods the module calls) and a
    message. *)
Inductive severity : Type :=
| info
| warning
| error.

Definition event : Type := (severity * string)%type.

Module Logged.

Definition M (A : Type) : Type := (list event * result A)%type.

Definition ret {A : Type} (a : A) : M A := ([], Ok a).

Definition raise {A : Type} (e : exn) : M A := ([], Raise e).

Definition log (sev : severity) (msg : string) : M unit :=
  ([(sev, msg)], Ok tt).

(** A step without logging. *)
Definition lift {A : Type} (r : result A) : M A := ([], r).

Definition bind {A B : Type} (m : M A) (k : A -> M B) : M B :=
  match m with
  | (l, Ok a) => (l ++ fst (k a), snd (k a))
  | (l, Raise e) => (l, Raise e)
  end.

Notation "x <~ m ;; k" := (bind m (fun x => k))
  (at level 61, m at next level, right associativity) : py_scope.
Notation "' p <~ m ;; k" := (bind m (fun x => match x with p => k end))
  (at level 61, p pattern, m at next level, right associativity) : py_scope.

Definition _process_mismatch {A : Type} (abscissa ordinates : list A)
    (mismatch_strategy : strategy_arg) : M (list A * list A) :=
  if (length abscissa <? 3)%nat || (length ordinates <? 3)%nat then
    _ <~ log error "A lenght of arguments is less than 3" ;;
    raise LengthError
  else if negb (length abscissa =? length ordinates)%nat then
    match mismatch_strategy with
    | Member FALL =>
        _ <~ log error "Lenghts of the arguments are not equal" ;;
        raise MismatchError
    | Member CUT =>
        _ <~ log warning
               ("Lenghts of the arguments are not equal,"
                  ++ replicate 38 " "
                  ++ "so longest list will be cut")%string ;;
        let min_lenght := Nat.min (length abscissa) (length ordinates) in
        ret (firstn min_lenght abscissa, firstn min_lenght ordinates)
    | NotMember =>
        _ <~ log error
               ("Unknown data in argument " ++ dquote ++ "mismatch_data"
                  ++ dquote)%string ;;
        raise PolicyError
    end
  else ret (abscissa, ordinates).

(** Nothing is logged between "Calculating coefficients started" and
    "Calculating coefficients completed": the numeric part is
    [coefficients]. *)
Definition get_lsm_description (abscissa ordinates : list value)
    (mismatch_strategy : strategy_arg) : M LSMDescription :=
  _ <~ log info "Validating of data" ;;
  if negb (_is_valid_measurments abscissa)
     || negb (_is_valid_measurments ordinates)
  then
    _ <~ log error "There are nonreal values in input data" ;;
    raise InputValueError
  else
    '(abscissa, ordinates) <~
      _process_mismatch abscissa ordinates mismatch_strategy ;;
    _ <~ log info "Validating passed successful" ;;
    _ <~ log info "Calculating coefficients started" ;;
    description <~
      lift (coefficients (map as_real abscissa) (map as_real ordinates)) ;;
    _ <~ log info "Calculating coefficients completed" ;;
    ret description.

End Logged.

(** ** Results and primitives *)

Lemma bind_Ok_inv {A B : Type} (m : result A) (k : A -> result B) (b : B) :
  bind m k = Ok b -> exists a, m = Ok a /\ k a = Ok b.
Proof.
  destruct m as [a | e]; simpl; intros H; [ exists a; auto | discriminate ].
Qed.

Lemma bind_Raise_inv {A B : Type} (m : result A) (k : A -> result B)
    (e : exn) :
  bind m k = Raise e ->
  m = Raise e \/ exists a, m = Ok a /\ k a = Raise e.
Proof.
  destruct m as [a | e']; simpl; intros H.
  - right. exists a. auto.
  - left. inversion H. reflexivity.
Qed.

(** Decomposition of a successful run into its successful steps. *)
Ltac inv_run H :=
  repeat match type of H with
  | bind _ _ = Ok _ =>
      let a := fresh "v" in
      let Ha := fresh "E" in
      apply bind_Ok_inv in H; destruct H as [a [Ha H]]
  end.


Lemma truediv_Raise_inv (a b : float) (e : exn) :
  truediv a b = Raise e -> e = ZeroDivisionError.
Proof.
  unfold truediv. destruct (PrimFloat.is_zero b); intros H;
    inversion H; reflexivity.
Qed.

Lemma pow2_Raise_inv (x : float) (e : exn) :
  pow2 x = Raise e -> e = OverflowError.
Proof.
  unfold pow2.
  destruct (PrimFloat.is_nan x); [ discriminate | ].
  destruct (PrimFloat.is_infinity x); [ discriminate | ].
  destruct (PrimFloat.is_zero x); [ discriminate | ].
  destruct (PrimFloat.is_infinity _); intros H; inversion H; reflexivity.
Qed.

Lemma math_sqrt_Ok_inv (x r : float) :
  math_sqrt x = Ok r -> r = PrimFloat.sqrt x.
Proof.
  unfold math_sqrt.
  destruct (PrimFloat.is_nan (PrimFloat.sqrt x) && negb (PrimFloat.is_nan x));
    intros H; inversion H; reflexivity.
Qed.

Lemma math_sqrt_Raise_inv (x : float) (e : exn) :
  math_sqrt x = Raise e -> e = MathDomainError.
Proof.
  unfold math_sqrt.
  destruct (PrimFloat.is_nan (PrimFloat.sqrt x) && negb (PrimFloat.is_nan x));
    intros H; inversion H; reflexivity.
Qed.

(** *** Index loops over paired lists *)

Lemma getitem_app {A : Type} (pre l : list A) (x : A) :
  getitem (pre ++ x :: l) (length pre) = Ok x.
Proof.
  unfold getitem. rewrite nth_error_app2 by lia.
  rewrite Nat.sub_diag. reflexivity.
Qed.


Section IndexLoops.
Context {A B C : Type}.

(** A loop over the indices of the first of two lists, the second being
    at least as long, visits the pairs in order; the elements of the
    second list beyond the first are never read. *)
Lemma comprehension_seq2 (f : A -> B -> result C) (xs : list A) :
  forall (ys : list B) (px : list A) (py : list B),
    length px = length py ->
    (length xs <= length ys)%nat ->
    comprehension
      (fun i => x <- getitem (px ++ xs) i ;;
                y <- getitem (py ++ ys) i ;;
                f x y)
      (seq (length px) (length xs))
    = comprehension (fun p => f (fst p) (snd p)) (combine xs ys).
Proof.
  induction xs as [| x xs IH]; intros ys px py Hp Hl.
  - reflexivity.
  - destruct ys as [| y ys]; [ simpl in Hl; lia | ].
    cbn [length seq comprehension combine fst snd].
    assert (Hy : getitem (py ++ y :: ys) (length px) = Ok y)
      by (rewrite Hp; apply getitem_app).
    rewrite getitem_app. cbn [bind]. rewrite Hy. cbn [bind].
    specialize (IH ys (px ++ [x]) (py ++ [y])).
    rewrite !length_app in IH. cbn [length] in IH.
    rewrite <- !app_assoc in IH.
    change ([x] ++ xs) with (x :: xs) in IH.
    change ([y] ++ ys) with (y :: ys) in IH.
    replace (length px + 1)%nat with (S (length px)) in IH by lia.
    rewrite IH by (simpl in Hl; lia).
    reflexivity.
Qed.

Lemma comprehension_range2 (f : A -> B -> result C)
    (xs : list A) (ys : list B) :
  (length xs <= length ys)%nat ->
  comprehension
    (fun i => x <- getitem xs i ;; y <- getitem ys i ;; f x y)
    (range (length xs))
  = comprehension (fun p => f (fst p) (snd p)) (combine xs ys).
Proof. intros Hl. exact (comprehension_seq2 f xs ys [] [] eq_refl Hl). Qed.



Lemma comprehension_seq1 (f : A -> result C) (xs : list A) :
  forall px : list A,
    comprehension (fun i => x <- getitem (px ++ xs) i ;; f x)
      (seq (length px) (length xs))
    = comprehension f xs.
Proof.
  induction xs as [| x xs IH]; intros px.
  - reflexivity.
  - cbn [length seq comprehension].
    rewrite getitem_app. cbn [bind].
    specialize (IH (px ++ [x])).
    rewrite length_app in IH. cbn [length] in IH.
    rewrite <- app_assoc in IH.
    change ([x] ++ xs) with (x :: xs) in IH.
    replace (length px + 1)%nat with (S (length px)) in IH by lia.
    rewrite IH. reflexivity.
Qed.

Lemma comprehension_range1 (f : A -> result C) (xs : list A) :
  comprehension (fun i => x <- getitem xs i ;; f x) (range (length xs))
  = comprehension f xs.
Proof. exact (comprehension_seq1 f xs []). Qed.

(** An element expression that does not raise makes a [map]. *)
Lemma comprehension_Ok (f : A -> C) (l : list A) :
  comprehension (fun a => Ok (f a)) l = Ok (map f l).
Proof.
  induction l as [| a l IH]; simpl; [ reflexivity | ].
  rewrite IH. reflexivity.
Qed.

(** A loop raises what one of its elements raises. *)
Lemma comprehension_Raise_inv (f : A -> result C) (l : list A) (e : exn) :
  comprehension f l = Raise e -> exists a, In a l /\ f a = Raise e.
Proof.
  induction l as [| a l IH]; simpl; intros H; [ discriminate | ].
  apply bind_Raise_inv in H. destruct H as [H | [b [Hb H]]].
  - exists a. auto.
  - apply bind_Raise_inv in H. destruct H as [H | [bs [_ H]]];
      [ | discriminate ].
    destruct (IH H) as [a' [Hin Ha']]. exists a'. auto.
Qed.

Lemma comprehension_length (f : A -> result C) (l : list A) :
  forall cs, comprehension f l = Ok cs -> length cs = length l.
Proof.
  induction l as [| a l IH]; intros cs H; simpl in H.
  - inversion H. reflexivity.
  - inv_run H. inversion H; subst. simpl. f_equal. eauto.
Qed.
End IndexLoops.

Lemma pairwise_swap {A B C : Type} (f : A -> B -> C)
    (xs : list A) (ys : list B) :
  pairwise (fun y x => f x y) ys xs = pairwise f xs ys.
Proof.
  unfold pairwise. revert ys.
  induction xs as [| x xs IH]; intros [| y ys]; simpl; try reflexivity.
  rewrite IH. reflexivity.
Qed.


Lemma comprehension_combine_swap {A B C : Type} (f : A -> B -> result C)
    (xs : list A) (ys : list B) :
  comprehension (fun p => f (snd p) (fst p)) (combine ys xs)
  = comprehension (fun p => f (fst p) (snd p)) (combine xs ys).
Proof.
  revert ys. induction xs as [| x xs IH]; intros [| y ys]; simpl;
    try reflexivity.
  rewrite IH. reflexivity.
Qed.

(** ** Square roots in binary64 *)

(** The correctly rounded square root has no negative value: it is a
    NaN, a zero, or positive. *)
Lemma SFsqrt_not_negative (x : spec_float) :
  match SF64sqrt x with
  | S754_finite true _ _ | S754_infinity true => False
  | _ => True
  end.
Proof.
  unfold SF64sqrt, SFsqrt.
  destruct x as [s | s | | s m e]; try destruct s; auto.
  destruct (SFsqrt_core_binary prec emax (Z.pos m) e) as [[mz ez] lz].
  unfold binary_round_aux.
  destruct (shr_fexp prec emax mz ez lz) as [mrs' e'].
  destruct (shr_fexp prec emax _ e' loc_Exact) as [mrs'' e''].
  destruct (shr_m mrs''); auto.
  destruct (Z.leb e'' (emax - prec)); auto.
Qed.

Lemma sqrt_not_lt_zero (x : float) : (PrimFloat.sqrt x <? 0) = false.
Proof.
  rewrite FloatAxioms.ltb_spec, FloatAxioms.sqrt_spec.
  pose proof (SFsqrt_not_negative (Prim2SF x)) as H.
  change (Prim2SF 0) with (S754_zero false).
  destruct (SF64sqrt (Prim2SF x)) as [s | s | | s m e];
    try destruct s; try contradiction; reflexivity.
Qed.

Lemma sqrt_nan_or_nonneg (x : float) :
  PrimFloat.is_nan (PrimFloat.sqrt x) = true
  \/ (0 <=? PrimFloat.sqrt x) = true.
Proof.
  unfold PrimFloat.is_nan.
  rewrite FloatAxioms.leb_spec, FloatAxioms.eqb_spec, FloatAxioms.sqrt_spec.
  pose proof (SFsqrt_not_negative (Prim2SF x)) as H.
  change (Prim2SF 0) with (S754_zero false).
  destruct (SF64sqrt (Prim2SF x)) as [s | s | | s m e];
    try destruct s; try contradiction; auto.
Qed.

(** ** Validation and mismatch processing *)

Lemma _is_valid_measurments_Real (xs : list float) :
  _is_valid_measurments (map Real xs) = true.
Proof.
  unfold _is_valid_measurments. induction xs as [| x xs IH]; simpl; auto.
Qed.

Lemma as_real_Real (xs : list float) : map as_real (map Real xs) = xs.
Proof.
  induction xs as [| x xs IH]; simpl; [ reflexivity | rewrite IH; reflexivity ].
Qed.

Lemma _is_valid_measurments_as_real (l : list value) :
  _is_valid_measurments l = true -> map Real (map as_real l) = l.
Proof.
  unfold _is_valid_measurments.
  induction l as [| [x |] l IH]; simpl; intros H.
  - reflexivity.
  - rewrite IH by exact H. reflexivity.
  - discriminate.
Qed.

Lemma _is_valid_measurments_firstn (n : nat) (l : list value) :
  _is_valid_measurments l = true ->
  _is_valid_measurments (firstn n l) = true.
Proof.
  unfold _is_valid_measurments. intros H. apply forallb_forall.
  intros x Hx. rewrite forallb_forall in H. apply H.
  rewrite <- (firstn_skipn n l). apply in_or_app. left. exact Hx.
Qed.

Section ProcessMismatch.
Context {A : Type}.
Implicit Types abscissa ordinates : list A.

Lemma _process_mismatch_short abscissa ordinates s :
  (length abscissa < 3)%nat \/ (length ordinates < 3)%nat ->
  _process_mismatch abscissa ordinates s = Raise LengthError.
Proof.
  intros H. unfold _process_mismatch.
  destruct (Nat.ltb_spec (length abscissa) 3) as [Ha | Ha];
    [ reflexivity | ].
  destruct (Nat.ltb_spec (length ordinates) 3) as [Ho | Ho];
    [ reflexivity | ].
  lia.
Qed.

Lemma _process_mismatch_matched abscissa ordinates s :
  (3 <= length abscissa)%nat ->
  length abscissa = length ordinates ->
  _process_mismatch abscissa ordinates s = Ok (abscissa, ordinates).
Proof.
  intros Ha Hl. unfold _process_mismatch.
  destruct (Nat.ltb_spec (length abscissa) 3); [ lia | ].
  destruct (Nat.ltb_spec (length ordinates) 3); [ lia | ].
  rewrite Hl, Nat.eqb_refl. reflexivity.
Qed.

Lemma _process_mismatch_differ abscissa ordinates s :
  (3 <= length abscissa)%nat ->
  (3 <= length ordinates)%nat ->
  length abscissa <> length ordinates ->
  _process_mismatch abscissa ordinates s
  = match s with
    | Member FALL => Raise MismatchError
    | Member CUT =>
        Ok (firstn (Nat.min (length abscissa) (length ordinates)) abscissa,
            firstn (Nat.min (length abscissa) (length ordinates)) ordinates)
    | NotMember => Raise PolicyError
    end.
Proof.
  intros Ha Ho Hl. unfold _process_mismatch.
  destruct (Nat.ltb_spec (length abscissa) 3); [ lia | ].
  destruct (Nat.ltb_spec (length ordinates) 3); [ lia | ].
  apply Nat.eqb_neq in Hl. rewrite Hl. reflexivity.
Qed.

(** Whatever [_process_mismatch] returns is a pair of lists of one
    length, at least three. *)
Lemma _process_mismatch_resolved abscissa ordinates s abscissa' ordinates' :
  _process_mismatch abscissa ordinates s = Ok (abscissa', ordinates') ->
  length abscissa' = length ordinates' /\ (3 <= length abscissa')%nat.
Proof.
  unfold _process_mismatch.
  destruct (Nat.ltb_spec (length abscissa) 3); [ discriminate | ].
  destruct (Nat.ltb_spec (length ordinates) 3); [ discriminate | ].
  destruct (Nat.eqb_spec (length abscissa) (length ordinates)) as [E | E];
    cbn [orb negb].
  - intros H'. inversion H'; subst. split; [ exact E | assumption ].
  - destruct s as [[|] |]; try discriminate.
    intros H'. inversion H'; subst. rewrite !length_firstn. lia.
Qed.

Lemma _process_mismatch_failures abscissa ordinates s (e : exn) :
  _process_mismatch abscissa ordinates s = Raise e ->
  e = LengthError \/ e = MismatchError \/ e = PolicyError.
Proof.
  unfold _process_mismatch.
  destruct ((length abscissa <? 3)%nat || (length ordinates <? 3)%nat).
  - intros H. inversion H. auto.
  - destruct (negb (length abscissa =? length ordinates)%nat);
      [ | discriminate ].
    destruct s as [[|] |]; intros H; inversion H; auto.
Qed.
End ProcessMismatch.

(** ** Statistics and coefficients *)

Lemma get_lsm_description_valid (a o : list value) (s : strategy_arg) :
  _is_valid_measurments a = true ->
  _is_valid_measurments o = true ->
  get_lsm_description a o s
  = ('(abscissa, ordinates) <- _process_mismatch a o s ;;
     coefficients (map as_real abscissa) (map as_real ordinates)).
Proof.
  intros Ha Ho. unfold get_lsm_description. rewrite Ha, Ho. cbn [negb orb].
  destruct (_process_mismatch a o s) as [[a' o'] | e]; reflexivity.
Qed.

(** A list with an element that is not a real number is refused before
    anything else is looked at. *)
Lemma get_lsm_description_not_real (a o : list value) (s : strategy_arg) :
  _is_valid_measurments a = false \/ _is_valid_measurments o = false ->
  get_lsm_description a o s = Raise InputValueError.
Proof.
  intros [H | H]; unfold get_lsm_description; rewrite H;
    [ reflexivity | ].
  destruct (_is_valid_measurments a); reflexivity.
Qed.

(** On resolved real-valued lists the strategy plays no part. *)
Lemma get_lsm_description_resolved (xs ys : list float) (s : strategy_arg) :
  length xs = length ys ->
  (3 <= length xs)%nat ->
  get_lsm_description (map Real xs) (map Real ys) s = coefficients xs ys.
Proof.
  intros Hl Hn.
  rewrite get_lsm_description_valid by apply _is_valid_measurments_Real.
  rewrite _process_mismatch_matched by (rewrite ?length_map; assumption).
  cbn [bind]. rewrite !as_real_Real. reflexivity.
Qed.

(** On lists of one length, the index loops of [_get_lsm_statistics] are
    loops over the pairs and over the abscissa. *)
Lemma _get_lsm_statistics_paired (xs ys : list float) :
  (length xs <= length ys)%nat ->
  _get_lsm_statistics xs ys
  = (abscissa_mean <- truediv (sum xs) (len xs) ;;
     ordinates_mean <- truediv (sum ys) (len xs) ;;
     product_mean <- truediv (sum (pairwise PrimFloat.mul xs ys)) (len xs) ;;
     squares <- comprehension pow2 xs ;;
     abs_squared_mean <- truediv (sum squares) (len xs) ;;
     Ok {| abscissa_mean := abscissa_mean;
           ordinate_mean := ordinates_mean;
           product_mean := product_mean;
           abs_squared_mean := abs_squared_mean |}).
Proof.
  intros Hl. unfold _get_lsm_statistics.
  rewrite (comprehension_range2 (fun x y => Ok (x * y)) xs ys Hl).
  rewrite (comprehension_Ok (fun p => fst p * snd p) (combine xs ys)).
  rewrite (comprehension_range1 pow2 xs).
  reflexivity.
Qed.

(** The same for the residual loop of the numeric part. *)
Lemma coefficients_paired (xs ys : list float) :
  length xs = length ys ->
  coefficients xs ys
  = (stats <- _get_lsm_statistics xs ys ;;
     mean_squared <- pow2 (abscissa_mean stats) ;;
     incline <- truediv
       (product_mean stats - abscissa_mean stats * ordinate_mean stats)
       (abs_squared_mean stats - mean_squared) ;;
     let shift := ordinate_mean stats - incline * abscissa_mean stats in
     weight <- truediv 1 (float_of_Z (Z.of_nat (length xs) - 2)) ;;
     residuals <- comprehension
                    (fun p => pow2 (snd p - incline * fst p - shift))
                    (combine xs ys) ;;
     let ordinates_error := weight * sum residuals in
     q1 <- truediv ordinates_error (len xs) ;;
     mean_squared <- pow2 (abscissa_mean stats) ;;
     q2 <- truediv q1 (abs_squared_mean stats - mean_squared) ;;
     incline_error <- math_sqrt q2 ;;
     p1 <- truediv (ordinates_error * abs_squared_mean stats) (len xs) ;;
     mean_squared <- pow2 (abscissa_mean stats) ;;
     p2 <- truediv p1 (abs_squared_mean stats - mean_squared) ;;
     shift_error <- math_sqrt p2 ;;
     Ok {| incline := incline;
           shift := shift;
           incline_error := incline_error;
           shift_error := shift_error |}).
Proof.
  intros Hl. unfold coefficients.
  destruct (_get_lsm_statistics xs ys) as [stats | e]; [ | reflexivity ].
  cbn [bind].
  destruct (pow2 (abscissa_mean stats)) as [m2 | e]; [ | reflexivity ].
  cbn [bind].
  destruct (truediv _ (abs_squared_mean stats - m2)) as [k | e];
    [ | reflexivity ].
  cbn [bind].
  destruct (truediv 1 _) as [w | e]; [ | reflexivity ].
  cbn [bind].
  rewrite Hl.
  rewrite (comprehension_range2
             (fun y x =>
                pow2 (y - k * x - (ordinate_mean stats - k * abscissa_mean stats)))
             ys xs) by lia.
  rewrite (comprehension_combine_swap
             (fun x y =>
                pow2 (y - k * x - (ordinate_mean stats - k * abscissa_mean stats)))
             xs ys).
  reflexivity.
Qed.


Lemma get_lsm_description_123_246 (s : strategy_arg) :
  get_lsm_description [Real 1; Real 2; Real 3] [Real 2; Real 4; Real 6] s
  = Ok {| incline := 2; shift := 0; incline_error := 0; shift_error := 0 |}.
Proof.
  rewrite (get_lsm_description_resolved [1; 2; 3] [2; 4; 6])
    by (simpl; lia).
  vm_compute. reflexivity.
Qed.

(** ** Properties of [get_lsm_description] *)




(** C2: the code has no guard for a degenerate fit.  Abscissa that are
    all 1 make the division raise [ZeroDivisionError]; but abscissa that
    are all 0.3 give, by rounding, the denominator 1.4e-17 and a
    description is returned, with errors above 6e7; and abscissa that are
    all 0.1 give the denominator -1.7e-18 and the square root raises
    [ValueError]. *)
Theorem get_lsm_description_degenerate :
  get_lsm_description [Real 1; Real 1; Real 1] [Real 1; Real 2; Real 3]
    (Member FALL)
  = Raise ZeroDivisionError
  /\ get_lsm_description
       [Real 0.3; Real 0.3; Real 0.3] [Real 1; Real 2; Real 3]
       (Member FALL)
     = Ok {| incline := 0; shift := 2;
             incline_error := 219176632.02377504;
             shift_error := 65752989.607132517 |}
  /\ get_lsm_description
       [Real 0.1; Real 0.1; Real 0.1] [Real 1; Real 2; Real 3]
       (Member FALL)
     = Raise MathDomainError.
Proof.
  split; [ | split ]; vm_compute; reflexivity.
Qed.

(** C8, as the claim states it, fails: on the finite abscissa 1e100,
    2e100, 3e100 and ordinates 1e300, 2e300, 3e300 the products overflow
    to infinity, [get_lsm_description] returns all four fields NaN, and
    [nan >= 0] is false. *)
Lemma get_lsm_description_errors_nonneg_counterexample :
  let a := [Real 1e100; Real 2e100; Real 3e100] in
  let o := [Real 1e300; Real 2e300; Real 3e300] in
  _is_valid_measurments a = true
  /\ _is_valid_measurments o = true
  /\ get_lsm_description a o (Member FALL)
     = Ok {| incline := nan; shift := nan;
             incline_error := nan; shift_error := nan |}
  /\ (0 <=? nan) = false.
Proof.
  cbv zeta. repeat split; vm_compute; reflexivity.
Qed.

(** C8, amended.  Every description that [get_lsm_description] returns
    has errors that are not negative: [incline_error < 0] and
    [shift_error < 0] are false, each error being a NaN or [>= 0]. *)
Theorem get_lsm_description_errors_nonneg
    (a o : list value) (s : strategy_arg) (d : LSMDescription) :
  get_lsm_description a o s = Ok d ->
  (incline_error d <? 0) = false
  /\ (shift_error d <? 0) = false
  /\ (PrimFloat.is_nan (incline_error d) = true
      \/ (0 <=? incline_error d) = true)
  /\ (PrimFloat.is_nan (shift_error d) = true
      \/ (0 <=? shift_error d) = true).
Proof.
  intros H.
  assert (V : _is_valid_measurments a = true
              /\ _is_valid_measurments o = true).
  { unfold get_lsm_description in H.
    destruct (_is_valid_measurments a), (_is_valid_measurments o);
      try discriminate H. split; reflexivity. }
  destruct V as [Va Vo].
  rewrite get_lsm_description_valid in H by assumption.
  apply bind_Ok_inv in H. destruct H as [[a' o'] [_ H]].
  unfold coefficients in H. inv_run H.
  inversion H; subst d; cbn [incline_error shift_error].
  repeat match goal with
         | E : math_sqrt _ = Ok _ |- _ =>
             apply math_sqrt_Ok_inv in E; rewrite E
         end.
  repeat split;
    first [ apply sqrt_not_lt_zero | apply sqrt_nan_or_nonneg ].
Qed.

Lemma get_lsm_description_errors_nonneg_witness :
  (0.8660254037844386 <? 0) = false /\ (1.1180339887498949 <? 0) = false.
Proof.
  destruct (get_lsm_description_errors_nonneg
              [Real 0; Real 1; Real 2] [Real 1; Real 1; Real 4]
              (Member FALL)
              {| incline := 1.4999999999999998;
                 shift := 0.50000000000000022;
                 incline_error := 0.8660254037844386;
                 shift_error := 1.1180339887498949 |})
    as [H1 [H2 _]].
  - vm_compute. reflexivity.
  - split; [ exact H1 | exact H2 ].
Defined.

(** Unequal lengths under [FALL], the default, are refused. *)
Lemma get_lsm_description_mismatch :
  get_lsm_description
    [Real 1; Real 2; Real 3] [Real 1; Real 2; Real 3; Real 4] (Member FALL)
  = Raise MismatchError.
Proof.
  rewrite get_lsm_description_valid by reflexivity.
  rewrite _process_mismatch_differ by (simpl; lia). reflexivity.
Qed.

(** C6.  On real-valued lists of which at least one has fewer than three
    elements, [get_lsm_description] raises the length error under every
    strategy argument; abscissa [1,2] with ordinates [1,2] is such an
    input. *)
Theorem get_lsm_description_short :
  (forall (a o : list value) (s : strategy_arg),
      _is_valid_measurments a = true ->
      _is_valid_measurments o = true ->
      (length a < 3)%nat \/ (length o < 3)%nat ->
      get_lsm_description a o s = Raise LengthError)
  /\ forall s : strategy_arg,
       get_lsm_description [Real 1; Real 2] [Real 1; Real 2] s
       = Raise LengthError.
Proof.
  assert (G : forall (a o : list value) (s : strategy_arg),
             _is_valid_measurments a = true ->
             _is_valid_measurments o = true ->
             (length a < 3)%nat \/ (length o < 3)%nat ->
             get_lsm_description a o s = Raise LengthError).
  { intros a o s Va Vo Hlen.
    rewrite get_lsm_description_valid by assumption.
    rewrite _process_mismatch_short by exact Hlen. reflexivity. }
  split; [ exact G | ].
  intros s. apply G; [ reflexivity | reflexivity | simpl; lia ].
Qed.

Lemma get_lsm_description_short_witness :
  get_lsm_description
    [Real 1; Real 2; Real 3; Real 4] [Real 7] NotMember
  = Raise LengthError.
Proof.
  apply (proj1 get_lsm_description_short).
  - reflexivity.
  - reflexivity.
  - right. simpl. lia.
Defined.

(** ** Properties of [_process_mismatch] *)

(** C3.  On two lists of at least three elements each, [_process_mismatch]
    under [CUT] returns the leading [min(len(abscissa), len(ordinates))]
    elements of each: two lists of that one length, each a prefix of the
    list it comes from; when the lengths are equal it returns the two
    lists as they are. *)
Theorem _process_mismatch_cut {A : Type} (abscissa ordinates : list A) :
  (3 <= length abscissa)%nat ->
  (3 <= length ordinates)%nat ->
  let m := Nat.min (length abscissa) (length ordinates) in
  exists abscissa' ordinates' : list A,
    _process_mismatch abscissa ordinates (Member CUT)
    = Ok (abscissa', ordinates')
    /\ abscissa' = firstn m abscissa
    /\ ordinates' = firstn m ordinates
    /\ length abscissa' = m
    /\ length ordinates' = m
    /\ (exists rest, abscissa = abscissa' ++ rest)
    /\ (exists rest, ordinates = ordinates' ++ rest)
    /\ (length abscissa = length ordinates ->
        abscissa' = abscissa /\ ordinates' = ordinates).
Proof.
  intros Ha Ho m.
  exists (firstn m abscissa), (firstn m ordinates).
  split.
  { destruct (Nat.eq_dec (length abscissa) (length ordinates)) as [E | E].
    - rewrite _process_mismatch_matched by assumption.
      subst m. rewrite <- E, Nat.min_id. rewrite firstn_all.
      rewrite E at 1. rewrite firstn_all. reflexivity.
    - rewrite _process_mismatch_differ by assumption. reflexivity. }
  split; [ reflexivity | ]. split; [ reflexivity | ].
  split; [ rewrite length_firstn; subst m; lia | ].
  split; [ rewrite length_firstn; subst m; lia | ].
  split; [ exists (skipn m abscissa); symmetry; apply firstn_skipn | ].
  split; [ exists (skipn m ordinates); symmetry; apply firstn_skipn | ].
  intros Heq. subst m. rewrite Heq, Nat.min_id. split.
  - rewrite <- Heq. apply firstn_all.
  - apply firstn_all.
Qed.

Lemma _process_mismatch_cut_witness :
  _process_mismatch [1; 2; 3; 4; 5]%nat [1; 2; 3]%nat (Member CUT)
  = Ok ([1; 2; 3]%nat, [1; 2; 3]%nat).
Proof.
  destruct (_process_mismatch_cut [1; 2; 3; 4; 5]%nat [1; 2; 3]%nat)
    as [a' [o' [Hr [Ha [Ho _]]]]].
  - simpl; lia.
  - simpl; lia.
  - rewrite Hr, Ha, Ho. reflexivity.
Defined.

(** C5, as the claim states it, fails: on abscissa [1,2,3] and ordinates
    [2,4,6], two real-valued lists of three elements, a strategy argument
    outside the enumeration does not make [get_lsm_description] raise the
    policy error; the call returns the fit. *)
Lemma get_lsm_description_policy_counterexample :
  let a := [Real 1; Real 2; Real 3] in
  let o := [Real 2; Real 4; Real 6] in
  _is_valid_measurments a = true
  /\ _is_valid_measurments o = true
  /\ (3 <= length a)%nat
  /\ (3 <= length o)%nat
  /\ get_lsm_description a o NotMember
     = Ok {| incline := 2; shift := 0;
             incline_error := 0; shift_error := 0 |}
  /\ get_lsm_description a o NotMember <> Raise PolicyError.
Proof.
  cbv zeta. rewrite get_lsm_description_123_246.
  repeat split; try reflexivity; try (simpl; lia). discriminate.
Qed.

(** C5, amended.  On real-valued lists of at least three elements each
    whose lengths differ, a strategy argument outside the enumeration
    makes [get_lsm_description] raise the policy error; when the lengths
    are equal the strategy argument is not looked at, and the call does
    what it does under [FALL]. *)
Theorem get_lsm_description_policy (a o : list value) :
  _is_valid_measurments a = true ->
  _is_valid_measurments o = true ->
  (3 <= length a)%nat ->
  (3 <= length o)%nat ->
  (length a <> length o ->
   get_lsm_description a o NotMember = Raise PolicyError)
  /\ (length a = length o ->
      forall s : strategy_arg,
        get_lsm_description a o s = get_lsm_description a o (Member FALL)).
Proof.
  intros Va Vo Ha Ho. split.
  - intros Hl. rewrite get_lsm_description_valid by assumption.
    rewrite _process_mismatch_differ by assumption. reflexivity.
  - intros Hl s. rewrite !get_lsm_description_valid by assumption.
    rewrite !_process_mismatch_matched by assumption. reflexivity.
Qed.

Lemma get_lsm_description_policy_witness :
  get_lsm_description
    [Real 1; Real 2; Real 3] [Real 1; Real 2; Real 3; Real 4] NotMember
  = Raise PolicyError.
Proof.
  apply (get_lsm_description_policy
           [Real 1; Real 2; Real 3] [Real 1; Real 2; Real 3; Real 4]).
  - reflexivity.
  - reflexivity.
  - simpl; lia.
  - simpl; lia.
  - simpl; lia.
Defined.

(** ** Properties of [get_lsm_lines] *)

(** With a description supplied the lines are computed from it at once:
    nothing is validated and nothing is resolved. *)
Lemma get_lsm_lines_Description
    (xs : list float) (o : list value) (d : LSMDescription) :
  get_lsm_lines xs o (Description d)
  = Ok {| abscissa := xs;
          ordinates := o;
          line_predicted := map (fun x => incline d * x + shift d) xs;
          line_above :=
            map (fun x => (incline d + incline_error d) * x
                          + shift d + shift_error d) xs;
          line_under :=
            map (fun x => (incline d - incline_error d) * x
                          + shift d - shift_error d) xs |}.
Proof. reflexivity. Qed.

Lemma nth_error_map_ext {A B : Type} (f g : A -> B) (l : list A) (i : nat) :
  (forall a, f a = g a) ->
  nth_error (map f l) i = option_map g (nth_error l i).
Proof.
  intros H. rewrite nth_error_map.
  destruct (nth_error l i); simpl; [ rewrite H | ]; reflexivity.
Qed.

(** C4.  Whenever [get_lsm_description] (with its default strategy)
    returns a description [d] for an abscissa and ordinates,
    [get_lsm_lines] called on them without a description returns the very
    lines it returns when [d] is passed to it. *)
Theorem get_lsm_lines_default
    (xs : list float) (o : list value) (d : LSMDescription) :
  get_lsm_description (map Real xs) o (Member FALL) = Ok d ->
  exists lines : LSMLines,
    get_lsm_lines xs o PyNone = Ok lines
    /\ get_lsm_lines xs o (Description d) = Ok lines.
Proof.
  intros H. eexists. split.
  - unfold get_lsm_lines. rewrite H. cbn [bind]. reflexivity.
  - apply get_lsm_lines_Description.
Qed.

Lemma get_lsm_lines_default_witness :
  exists lines : LSMLines,
    get_lsm_lines [1; 2; 3] [Real 2; Real 4; Real 6] PyNone = Ok lines
    /\ get_lsm_lines [1; 2; 3] [Real 2; Real 4; Real 6]
         (Description {| incline := 2; shift := 0;
                         incline_error := 0; shift_error := 0 |})
       = Ok lines.
Proof.
  apply (get_lsm_lines_default [1; 2; 3] [Real 2; Real 4; Real 6]).
  apply (get_lsm_description_123_246 (Member FALL)).
Defined.

(** The default is the only strategy [get_lsm_lines] ever uses: lists
    that [get_lsm_description] fits under [CUT] are refused when the
    description is left out. *)
Lemma get_lsm_lines_None_uses_FALL :
  get_lsm_lines [1; 2; 3; 4] [Real 2; Real 4; Real 6] PyNone
  = Raise MismatchError.
Proof.
  unfold get_lsm_lines.
  rewrite get_lsm_description_valid by reflexivity.
  rewrite _process_mismatch_differ by (simpl; lia). reflexivity.
Qed.

(** An argument that is neither [None] nor a description is refused. *)
Lemma get_lsm_lines_NotDescription (xs : list float) (o : list value) :
  get_lsm_lines xs o NotDescription = Raise TypeMismatchError.
Proof. reflexivity. Qed.

(** C7, as the claim states it, fails: the source adds the shift and
    then the shift error to the product, one after the other, and in
    binary64 that is not the product plus their sum.  For the description
    with incline 0.1, shift 0.2, incline error 0 and shift error 0.3 at
    the abscissa 1, [line_above] holds 0.6000000000000001, where
    [(incline + incline_error)*x + (shift + shift_error)] is 0.6. *)
Lemma get_lsm_lines_elementwise_counterexample :
  let d := {| incline := 0.1; shift := 0.2;
              incline_error := 0; shift_error := 0.3 |} in
  exists lines : LSMLines,
    get_lsm_lines [1] [] (Description d) = Ok lines
    /\ nth_error (line_above lines) 0 = Some 0.6000000000000001
    /\ (incline d + incline_error d) * 1 + (shift d + shift_error d) = 0.6
    /\ (0.6000000000000001 =? 0.6) = false.
Proof.
  cbv zeta. eexists. split; [ apply get_lsm_lines_Description | ].
  repeat split; vm_compute; reflexivity.
Qed.

(** C7, amended.  For every abscissa and every description [d],
    [get_lsm_lines] returns lines of the length of the abscissa whose
    [i]-th elements, for the [i]-th abscissa [x], are, in binary64
    arithmetic from left to right, [d.incline*x + d.shift],
    [((d.incline + d.incline_error)*x + d.shift) + d.shift_error] and
    [((d.incline - d.incline_error)*x + d.shift) - d.shift_error]. *)
Theorem get_lsm_lines_elementwise
    (xs : list float) (o : list value) (d : LSMDescription) :
  exists lines : LSMLines,
    get_lsm_lines xs o (Description d) = Ok lines
    /\ length (line_predicted lines) = length xs
    /\ length (line_above lines) = length xs
    /\ length (line_under lines) = length xs
    /\ forall i : nat,
        nth_error (line_predicted lines) i
        = option_map (fun x => incline d * x + shift d) (nth_error xs i)
        /\ nth_error (line_above lines) i
           = option_map
               (fun x => ((incline d + incline_error d) * x + shift d)
                         + shift_error d)
               (nth_error xs i)
        /\ nth_error (line_under lines) i
           = option_map
               (fun x => ((incline d - incline_error d) * x + shift d)
                         - shift_error d)
               (nth_error xs i).
Proof.
  eexists. split; [ apply get_lsm_lines_Description | ].
  cbn [line_predicted line_above line_under].
  rewrite !length_map. repeat split;
    apply nth_error_map_ext; reflexivity.
Qed.

(** C10.  With a description supplied, [get_lsm_lines] checks neither
    list: for any abscissa and any ordinates it returns lines with the
    abscissa and the ordinates as given and three generated lines of the
    length of the abscissa; so the ordinates of the result can differ in
    length from its lines, on lists that [get_lsm_lines] without a
    description refuses. *)
Theorem get_lsm_lines_unchecked :
  (forall (xs : list float) (o : list value) (d : LSMDescription),
      exists lines : LSMLines,
        get_lsm_lines xs o (Description d) = Ok lines
        /\ abscissa lines = xs
        /\ ordinates lines = o
        /\ length (line_predicted lines) = length xs
        /\ length (line_above lines) = length xs
        /\ length (line_under lines) = length xs)
  /\ (exists (xs : list float) (o : list value) (d : LSMDescription)
            (lines : LSMLines),
        get_lsm_lines xs o (Description d) = Ok lines
        /\ (length xs < 3)%nat
        /\ length (ordinates lines) <> length (line_predicted lines)
        /\ get_lsm_lines xs o PyNone = Raise LengthError).
Proof.
  split.
  - intros xs o d. eexists. split; [ apply get_lsm_lines_Description | ].
    cbn [abscissa ordinates line_predicted line_above line_under].
    rewrite !length_map. repeat split.
  - exists [1; 2], [Real 5],
      {| incline := 1; shift := 0; incline_error := 0; shift_error := 0 |}.
    eexists. split; [ apply get_lsm_lines_Description | ].
    cbn [ordinates line_predicted].
    split; [ simpl; lia | ]. split; [ simpl; lia | ].
    unfold get_lsm_lines.
    rewrite get_lsm_description_valid by reflexivity.
    rewrite _process_mismatch_short by (simpl; lia).
    reflexivity.
Qed.

(** ** Properties of [get_report] *)

Open Scope string_scope.

Lemma append_assoc (a b c : string) : (a ++ b) ++ c = a ++ b ++ c.
Proof.
  induction a as [| x a IH]; simpl; [ reflexivity | rewrite IH; reflexivity ].
Qed.

Lemma length_append (a b : string) :
  String.length (a ++ b) = (String.length a + String.length b)%nat.
Proof.
  induction a as [| x a IH]; simpl; [ reflexivity | rewrite IH; reflexivity ].
Qed.

Lemma all_digits_append (a b : string) :
  all_digits (a ++ b) = all_digits a && all_digits b.
Proof.
  induction a as [| x a IH]; simpl; [ reflexivity | ].
  rewrite IH. apply andb_assoc.
Qed.

Lemma is_digit_digit (d : Z) : (0 <= d < 10)%Z -> is_digit (digit d) = true.
Proof.
  intros H.
  assert (E : (d = 0 \/ d = 1 \/ d = 2 \/ d = 3 \/ d = 4 \/ d = 5 \/ d = 6
               \/ d = 7 \/ d = 8 \/ d = 9)%Z) by lia.
  repeat (destruct E as [-> | E]; [ reflexivity | ]). subst d. reflexivity.
Qed.

Lemma low_digits_length (p : nat) :
  forall n : Z, String.length (low_digits p n) = p.
Proof.
  induction p as [| p IH]; intros n; cbn [low_digits]; [ reflexivity | ].
  rewrite length_append, IH. cbn [String.length]. lia.
Qed.

Lemma low_digits_digits (p : nat) :
  forall n : Z, all_digits (low_digits p n) = true.
Proof.
  induction p as [| p IH]; intros n; cbn [low_digits]; [ reflexivity | ].
  rewrite all_digits_append, IH. cbn [all_digits andb].
  rewrite is_digit_digit; [ reflexivity | ].
  apply Z.mod_pos_bound. lia.
Qed.

Lemma string_of_uint_digits (u : Decimal.uint) :
  all_digits (NilEmpty.string_of_uint u) = true.
Proof. induction u; simpl; auto. Qed.

Lemma decimal_digits (n : Z) : all_digits (decimal n) = true.
Proof.
  unfold decimal, NilZero.string_of_uint.
  destruct (N.to_uint (Z.to_N n)) eqn:E;
    try reflexivity; rewrite <- E; apply string_of_uint_digits.
Qed.

Lemma decimal_nonempty (n : Z) : decimal n <> "".
Proof.
  unfold decimal, NilZero.string_of_uint.
  destruct (N.to_uint (Z.to_N n)); simpl; discriminate.
Qed.

(** *** Reading the digits back *)

Lemma read_digits_append (s1 s2 : string) (acc : Z) :
  read_digits (s1 ++ s2) acc = read_digits s2 (read_digits s1 acc).
Proof.
  revert acc. induction s1 as [| c s1 IH]; intros acc; cbn [append read_digits].
  - reflexivity.
  - apply IH.
Qed.

Lemma read_digits_of_uint_acc (u : Decimal.uint) :
  forall acc : positive,
    Z.pos (Pos.of_uint_acc u acc)
    = read_digits (NilEmpty.string_of_uint u) (Z.pos acc).
Proof.
  induction u; intros acc;
    cbn [Pos.of_uint_acc NilEmpty.string_of_uint read_digits];
    try reflexivity;
    rewrite IHu; f_equal;
    try match goal with
        | |- context [nat_of_ascii ?c] =>
            let v := eval vm_compute in (nat_of_ascii c) in
            change (nat_of_ascii c) with v
        end;
    lia.
Qed.

Lemma read_digits_of_uint (u : Decimal.uint) :
  Z.of_N (Pos.of_uint u) = read_digits (NilEmpty.string_of_uint u) 0.
Proof.
  induction u;
    cbn [Pos.of_uint NilEmpty.string_of_uint read_digits];
    try reflexivity; try exact IHu;
    cbn [Z.of_N]; rewrite read_digits_of_uint_acc; reflexivity.
Qed.

(** The integer digits read back as the integer they were written
    from. *)
Lemma read_digits_decimal (m : Z) :
  (0 <= m)%Z -> read_digits (decimal m) 0 = m.
Proof.
  intros Hm. unfold decimal.
  assert (E : read_digits
                (NilZero.string_of_uint (N.to_uint (Z.to_N m))) 0
              = Z.of_N (N.of_uint (N.to_uint (Z.to_N m)))).
  { generalize (N.to_uint (Z.to_N m)). intros u.
    unfold N.of_uint. rewrite read_digits_of_uint.
    destruct u; reflexivity. }
  rewrite E, DecimalN.Unsigned.of_to. apply Z2N.id. exact Hm.
Qed.

Lemma nat_of_ascii_digit (d : Z) :
  (0 <= d < 10)%Z -> (Z.of_nat (nat_of_ascii (digit d)) - 48 = d)%Z.
Proof.
  intros H.
  assert (E : (d = 0 \/ d = 1 \/ d = 2 \/ d = 3 \/ d = 4 \/ d = 5 \/ d = 6
               \/ d = 7 \/ d = 8 \/ d = 9)%Z) by lia.
  repeat (destruct E as [-> | E]; [ reflexivity | ]). subst d. reflexivity.
Qed.

(** The digits after the point read back as the number they were written
    from, below [10^p]. *)
Lemma read_digits_low_digits (p : nat) :
  forall m acc : Z,
    read_digits (low_digits p m) acc
    = (acc * 10 ^ Z.of_nat p + m mod 10 ^ Z.of_nat p)%Z.
Proof.
  induction p as [| p IH]; intros m acc.
  - cbn [low_digits read_digits]. rewrite Z.pow_0_r, Z.mod_1_r. lia.
  - cbn [low_digits]. rewrite read_digits_append, IH.
    cbn [read_digits].
    rewrite nat_of_ascii_digit by (apply Z.mod_pos_bound; lia).
    rewrite Nat2Z.inj_succ, Z.pow_succ_r by lia.
    rewrite (Z.rem_mul_r m 10 (10 ^ Z.of_nat p)) by lia.
    ring.
Qed.

(** The digits of [fixed], taken together, are the digits of [n]. *)
Lemma read_digits_fixed (p : nat) (n : Z) :
  (0 <= n)%Z ->
  read_digits
    (decimal (n / 10 ^ Z.of_nat p) ++ low_digits p (n mod 10 ^ Z.of_nat p)) 0
  = n.
Proof.
  intros Hn.
  assert (HP : (0 < 10 ^ Z.of_nat p)%Z) by (apply Z.pow_pos_nonneg; lia).
  rewrite read_digits_append.
  rewrite read_digits_decimal by (apply Z.div_pos; lia).
  rewrite read_digits_low_digits, Z.mod_mod by lia.
  rewrite Z.mul_comm. symmetry. apply Z.div_mod. lia.
Qed.

(** *** Rounding *)

(** The rounded quotient is within one half of the quotient, and at
    exactly one half it is even. *)
Lemma round_half_even_div_near (a d : Z) :
  (0 < d)%Z ->
  (Z.abs (2 * (round_half_even_div a d * d - a)) <= d)%Z
  /\ (Z.abs (2 * (round_half_even_div a d * d - a)) = d ->
      Z.even (round_half_even_div a d) = true).
Proof.
  intros Hd. unfold round_half_even_div.
  pose proof (Z.div_mod a d ltac:(lia)) as E.
  pose proof (Z.mod_pos_bound a d Hd) as B.
  set (q := (a / d)%Z) in *. set (r := (a mod d)%Z) in *.
  destruct (2 * r <? d)%Z eqn:H1;
    [ apply Z.ltb_lt in H1 | apply Z.ltb_ge in H1 ].
  { split; [ lia | intros; exfalso; lia ]. }
  destruct (d <? 2 * r)%Z eqn:H2;
    [ apply Z.ltb_lt in H2 | apply Z.ltb_ge in H2 ].
  { split; [ lia | intros; exfalso; lia ]. }
  destruct (Z.even q) eqn:H3.
  - split; [ lia | intros; exact H3 ].
  - split; [ lia | ]. intros _.
    rewrite Z.even_add, H3. reflexivity.
Qed.

Lemma round_half_even_div_nonneg (a d : Z) :
  (0 <= a)%Z -> (0 < d)%Z -> (0 <= round_half_even_div a d)%Z.
Proof.
  intros Ha Hd. unfold round_half_even_div.
  assert (0 <= a / d)%Z by (apply Z.div_pos; lia).
  destruct (2 * (a mod d) <? d)%Z; [ lia | ].
  destruct (d <? 2 * (a mod d))%Z; [ lia | ].
  destruct (Z.even (a / d)); lia.
Qed.

Lemma scaled_round_nonneg (p : nat) (m : positive) (e : Z) :
  (0 <= scaled_round p m e)%Z.
Proof.
  unfold scaled_round.
  assert (HP : (0 < 10 ^ Z.of_nat p)%Z) by (apply Z.pow_pos_nonneg; lia).
  destruct (0 <=? e)%Z eqn:He.
  - apply Z.leb_le in He.
    assert (0 < 2 ^ e)%Z by (apply Z.pow_pos_nonneg; lia). nia.
  - apply Z.leb_gt in He. apply round_half_even_div_nonneg.
    + nia.
    + apply Z.pow_pos_nonneg; lia.
Qed.

Lemma powerRZ_2_nonneg (e : Z) :
  (0 <= e)%Z -> powerRZ 2 e = IZR (2 ^ e).
Proof.
  intros He. destruct e as [| q | q]; [ reflexivity | | lia ].
  cbn [powerRZ]. rewrite pow_IZR, positive_nat_Z. reflexivity.
Qed.

Lemma powerRZ_2_neg (e : Z) :
  (e < 0)%Z -> powerRZ 2 e = (/ IZR (2 ^ (- e)))%R.
Proof.
  intros He. destruct e as [| q | q]; [ lia | lia | ].
  cbn [powerRZ Z.opp]. rewrite pow_IZR, positive_nat_Z. reflexivity.
Qed.

(** [scaled_round p m e], in units of the [p]-th decimal place, is
    within half a unit of [m * 2^e]. *)
Lemma scaled_round_near (p : nat) (m : positive) (e : Z) :
  (Rabs (IZR (scaled_round p m e) / IZR (10 ^ Z.of_nat p)
         - IZR (Z.pos m) * powerRZ 2 e)
   <= 1 / 2 / IZR (10 ^ Z.of_nat p))%R.
Proof.
  assert (HP : (0 < 10 ^ Z.of_nat p)%Z) by (apply Z.pow_pos_nonneg; lia).
  assert (HT : (0 < IZR (10 ^ Z.of_nat p))%R) by (apply IZR_lt; exact HP).
  set (T := IZR (10 ^ Z.of_nat p)) in *.
  assert (Hhalf : (0 <= 1 / 2 / T)%R).
  { apply Rlt_le. apply Rdiv_lt_0_compat; [ lra | exact HT ]. }
  unfold scaled_round. destruct (0 <=? e)%Z eqn:He.
  - apply Z.leb_le in He. rewrite powerRZ_2_nonneg by exact He.
    rewrite !mult_IZR. fold T.
    replace (IZR (Z.pos m) * IZR (2 ^ e) * T / T
             - IZR (Z.pos m) * IZR (2 ^ e))%R with 0%R
      by (field; lra).
    rewrite Rabs_R0. exact Hhalf.
  - apply Z.leb_gt in He. rewrite powerRZ_2_neg by exact He.
    assert (Hd : (0 < 2 ^ (- e))%Z) by (apply Z.pow_pos_nonneg; lia).
    destruct (round_half_even_div_near
                (Z.pos m * 10 ^ Z.of_nat p) (2 ^ (- e)) Hd) as [Hn _].
    set (n := round_half_even_div (Z.pos m * 10 ^ Z.of_nat p) (2 ^ (- e)))
      in *.
    set (d := (2 ^ (- e))%Z) in *.
    assert (HD : (0 < IZR d)%R) by (apply IZR_lt; exact Hd).
    apply Z.abs_le in Hn. destruct Hn as [Hlo Hhi].
    apply IZR_le in Hlo. apply IZR_le in Hhi.
    rewrite opp_IZR in Hlo.
    rewrite mult_IZR, minus_IZR, !mult_IZR in Hlo, Hhi.
    fold T in Hlo, Hhi.
    replace (IZR n / T - IZR (Z.pos m) * / IZR d)%R
      with ((IZR n * IZR d - IZR (Z.pos m) * T) * / (T * IZR d))%R
      by (field; lra).
    replace (1 / 2 / T)%R with (IZR d / 2 * / (T * IZR d))%R
      by (field; lra).
    assert (Hinv : (0 < / (T * IZR d))%R).
    { apply Rinv_0_lt_compat. apply Rmult_lt_0_compat; assumption. }
    rewrite Rabs_mult, (Rabs_pos_eq (/ (T * IZR d))) by lra.
    apply Rmult_le_compat_r; [ lra | ].
    apply Rabs_le. lra.
Qed.

(** At exactly half a unit the rounding goes to the even neighbour. *)
Lemma scaled_round_tie (p : nat) (m : positive) (e : Z) :
  (Rabs (IZR (scaled_round p m e) / IZR (10 ^ Z.of_nat p)
         - IZR (Z.pos m) * powerRZ 2 e)
   = 1 / 2 / IZR (10 ^ Z.of_nat p))%R ->
  Z.even (scaled_round p m e) = true.
Proof.
  assert (HP : (0 < 10 ^ Z.of_nat p)%Z) by (apply Z.pow_pos_nonneg; lia).
  assert (HT : (0 < IZR (10 ^ Z.of_nat p))%R) by (apply IZR_lt; exact HP).
  set (T := IZR (10 ^ Z.of_nat p)) in *.
  assert (Hhalf : (0 < 1 / 2 / T)%R).
  { apply Rdiv_lt_0_compat; [ lra | exact HT ]. }
  unfold scaled_round. destruct (0 <=? e)%Z eqn:He.
  - apply Z.leb_le in He. rewrite powerRZ_2_nonneg by exact He.
    rewrite !mult_IZR. fold T.
    replace (IZR (Z.pos m) * IZR (2 ^ e) * T / T
             - IZR (Z.pos m) * IZR (2 ^ e))%R with 0%R
      by (field; lra).
    rewrite Rabs_R0. intros H. exfalso. lra.
  - apply Z.leb_gt in He. rewrite powerRZ_2_neg by exact He.
    assert (Hd : (0 < 2 ^ (- e))%Z) by (apply Z.pow_pos_nonneg; lia).
    destruct (round_half_even_div_near
                (Z.pos m * 10 ^ Z.of_nat p) (2 ^ (- e)) Hd) as [_ Hn].
    set (n := round_half_even_div (Z.pos m * 10 ^ Z.of_nat p) (2 ^ (- e)))
      in *.
    set (d := (2 ^ (- e))%Z) in *.
    assert (HD : (0 < IZR d)%R) by (apply IZR_lt; exact Hd).
    replace (IZR n / T - IZR (Z.pos m) * / IZR d)%R
      with ((IZR n * IZR d - IZR (Z.pos m) * T) * / (T * IZR d))%R
      by (field; lra).
    replace (1 / 2 / T)%R with (IZR d / 2 * / (T * IZR d))%R
      by (field; lra).
    assert (Hinv : (0 < / (T * IZR d))%R).
    { apply Rinv_0_lt_compat. apply Rmult_lt_0_compat; assumption. }
    rewrite Rabs_mult, (Rabs_pos_eq (/ (T * IZR d))) by lra.
    intros H. apply Rmult_eq_reg_r in H; [ | lra ].
    apply Hn. apply eq_IZR.
    rewrite abs_IZR, mult_IZR, minus_IZR, !mult_IZR. fold T.
    rewrite Rabs_mult, (Rabs_pos_eq 2) by lra. rewrite H. field.
Qed.

Lemma Rabs_SF2R_finite (s : bool) (m : positive) (e : Z) :
  Rabs (SF2R (S754_finite s m e)) = (IZR (Z.pos m) * powerRZ 2 e)%R.
Proof.
  cbn [SF2R].
  assert (Hm : (0 < IZR (Z.pos m))%R) by (apply IZR_lt; lia).
  assert (He : (0 < powerRZ 2 e)%R) by (apply powerRZ_lt; lra).
  assert (Hp : (0 < IZR (Z.pos m) * powerRZ 2 e)%R)
    by (apply Rmult_lt_0_compat; assumption).
  destruct s.
  - replace (-1 * IZR (Z.pos m) * powerRZ 2 e)%R
      with (- (IZR (Z.pos m) * powerRZ 2 e))%R by ring.
    rewrite Rabs_Ropp. apply Rabs_pos_eq. lra.
  - rewrite Rmult_1_l. apply Rabs_pos_eq. lra.
Qed.

(** What [format(x, '.pf')] writes for a finite nonzero [x] and [p >= 1]:
    a minus sign when the sign bit is set, then integer digits, a point
    and [p] digits, which together denote [|x|] rounded to the [p]-th
    decimal place, ties to even. *)
Lemma format_f_finite (p : nat) (x : float) (s : bool) (m : positive)
    (e : Z) :
  Prim2SF x = S754_finite s m e ->
  exists int frac : string,
    format_f (S p) x = minus s ++ int ++ "." ++ frac
    /\ int <> ""
    /\ all_digits int = true
    /\ String.length frac = S p
    /\ all_digits frac = true
    /\ (Rabs (IZR (read_digits (int ++ frac) 0) / IZR (10 ^ Z.of_nat (S p))
              - Rabs (float_real x))
        <= 1 / 2 / IZR (10 ^ Z.of_nat (S p)))%R
    /\ ((Rabs (IZR (read_digits (int ++ frac) 0)
               / IZR (10 ^ Z.of_nat (S p))
               - Rabs (float_real x))
         = 1 / 2 / IZR (10 ^ Z.of_nat (S p)))%R ->
        Z.even (read_digits (int ++ frac) 0) = true).
Proof.
  intros E. unfold format_f, float_real. rewrite E.
  set (n := scaled_round (S p) m e).
  exists (decimal (n / 10 ^ Z.of_nat (S p))),
         (low_digits (S p) (n mod 10 ^ Z.of_nat (S p))).
  split; [ reflexivity | ].
  split; [ apply decimal_nonempty | ].
  split; [ apply decimal_digits | ].
  split; [ apply low_digits_length | ].
  split; [ apply low_digits_digits | ].
  rewrite read_digits_fixed by apply scaled_round_nonneg.
  rewrite Rabs_SF2R_finite.
  split; [ apply scaled_round_near | apply scaled_round_tie ].
Qed.

Lemma not_fixed_notation_nan (p : nat) : ~ fixed_notation p "nan".
Proof.
  intros [sign [int [frac [E [Hs [Hi [Hd _]]]]]]].
  destruct Hs as [-> | ->]; [ | discriminate E ].
  destruct int as [| c int]; [ contradiction Hi; reflexivity | ].
  cbn [append] in E. inversion E; subst c.
  cbn [all_digits] in Hd. discriminate Hd.
Qed.

Lemma format_f_1_23456 : format_f 3 1.23456%float = "1.235".
Proof. vm_compute. reflexivity. Qed.

(** *** The report *)

(** Whatever the destination, the files and the way writing goes, a
    call that returns returns [report_text]. *)
Lemma get_report_text (storage : Type)
    (write_file : string -> string -> storage -> result unit * storage)
    (d : LSMDescription) (path_to_save : option string) (st : storage)
    (text : string) :
  fst (get_report storage write_file d path_to_save st) = Ok text ->
  text = report_text d.
Proof.
  unfold get_report. destruct path_to_save as [path |]; simpl.
  - destruct (String.eqb path ""); simpl.
    + intros H. inversion H. reflexivity.
    + destruct (write_file path (report_text d) st) as [[u | e] st'];
        simpl; intros H; [ inversion H; reflexivity | discriminate ].
  - intros H. inversion H. reflexivity.
Qed.

(** C9, as the claim states it, fails: [get_lsm_description] returns,
    on the abscissa 1e100, 2e100, 3e100 and ordinates 1e300, 2e300,
    3e300, a description whose fields are NaN, and the report of that
    description has no number with three decimal places in it: the
    incline is written [nan]. *)
Lemma get_report_deterministic_counterexample :
  let d := {| incline := nan; shift := nan;
              incline_error := nan; shift_error := nan |} in
  get_lsm_description
    [Real 1e100; Real 2e100; Real 3e100]
    [Real 1e300; Real 2e300; Real 3e300] (Member FALL)
  = Ok d
  /\ report_text d
     = String.concat newline
         [ replicate 40 "=" ++ "LSM computing result" ++ replicate 40 "=";
           "";
           "[INFO]: incline: nan;";
           "[INFO]: shift: nan;";
           "[INFO]: incline error: nan;";
           "[INFO]: shift error: nan;";
           "";
           replicate 100 "=" ]
  /\ format_f PRECISION (incline d) = "nan"
  /\ ~ fixed_notation PRECISION (format_f PRECISION (incline d)).
Proof.
  cbv zeta. split; [ vm_compute; reflexivity | ].
  split; [ vm_compute; reflexivity | ].
  split; [ vm_compute; reflexivity | ].
  change (format_f PRECISION nan) with "nan".
  apply not_fixed_notation_nan.
Qed.

(** C9, amended.  The text [get_report] returns depends on the
    description only: two calls on one description, whatever their
    destinations, the files present and the outcome of writing, return
    the same text, and a call without destination always returns.  The
    text is the banner-framed report with the incline, the shift and the
    two errors.  A field that is finite is written with a minus sign
    when its sign bit is set and its magnitude in fixed notation with
    exactly three digits after the point, the digits being the value
    rounded to the third decimal place, ties to even; a zero is written
    [0.000] or [-0.000]; a field that is not finite is written [nan],
    [inf] or [-inf], with no decimals.  For a description whose incline
    is 1.23456 the text contains "incline: 1.235;". *)
Theorem get_report_deterministic :
  (forall (storage : Type)
          (write1 write2 : string -> string -> storage
                           -> result unit * storage)
          (d : LSMDescription) (path1 path2 : option string)
          (st1 st2 : storage) (text1 text2 : string),
      fst (get_report storage write1 d path1 st1) = Ok text1 ->
      fst (get_report storage write2 d path2 st2) = Ok text2 ->
      text1 = text2)
  /\ (forall (storage : Type)
             (write_file : string -> string -> storage
                           -> result unit * storage)
             (d : LSMDescription) (st : storage),
         get_report storage write_file d None st = (Ok (report_text d), st))
  /\ (forall d : LSMDescription,
         report_text d
         = String.concat newline
             [ replicate 40 "=" ++ "LSM computing result"
                 ++ replicate 40 "=";
               "";
               "[INFO]: incline: " ++ format_f 3 (incline d) ++ ";";
               "[INFO]: shift: " ++ format_f 3 (shift d) ++ ";";
               "[INFO]: incline error: "
                 ++ format_f 3 (incline_error d) ++ ";";
               "[INFO]: shift error: " ++ format_f 3 (shift_error d) ++ ";";
               "";
               replicate 100 "=" ])
  /\ (forall x : float,
         match Prim2SF x with
         | S754_nan => format_f 3 x = "nan"
         | S754_infinity s => format_f 3 x = minus s ++ "inf"
         | S754_zero s => format_f 3 x = minus s ++ "0.000"
         | S754_finite s _ _ =>
             exists int frac : string,
               format_f 3 x = minus s ++ int ++ "." ++ frac
               /\ int <> ""
               /\ all_digits int = true
               /\ String.length frac = 3%nat
               /\ all_digits frac = true
               /\ (Rabs (IZR (read_digits (int ++ frac) 0) / 1000
                         - Rabs (float_real x))
                   <= 1 / 2000)%R
               /\ ((Rabs (IZR (read_digits (int ++ frac) 0) / 1000
                          - Rabs (float_real x))
                    = 1 / 2000)%R ->
                   Z.even (read_digits (int ++ frac) 0) = true)
         end)
  /\ (forall d : LSMDescription,
         incline d = 1.23456%float ->
         Substring "incline: 1.235;" (report_text d)).
Proof.
  split; [ | split; [ | split; [ | split ] ] ].
  - intros storage write1 write2 d path1 path2 st1 st2 text1 text2 H1 H2.
    apply get_report_text in H1. apply get_report_text in H2. congruence.
  - reflexivity.
  - reflexivity.
  - intros x. destruct (Prim2SF x) as [s | s | | s m e] eqn:E.
    + unfold format_f. rewrite E. reflexivity.
    + unfold format_f. rewrite E. reflexivity.
    + unfold format_f. rewrite E. reflexivity.
    + destruct (format_f_finite 2 x s m e E)
        as [int [frac [H1 [H2 [H3 [H4 [H5 [H6 H7]]]]]]]].
      exists int, frac.
      change (IZR (10 ^ Z.of_nat 3)) with 1000%R in H6, H7.
      replace (1 / 2 / 1000)%R with (1 / 2000)%R in H6, H7 by lra.
      repeat split; assumption.
  - intros d Hd. unfold report_text, PRECISION. rewrite Hd, format_f_1_23456.
    cbn [String.concat].
    exists (center "LSM computing result" 100 "=" ++ newline ++ ""
            ++ newline ++ "[INFO]: ").
    eexists.
    rewrite !append_assoc. reflexivity.
Qed.

Lemma get_report_deterministic_witness :
  Substring "incline: 1.235;"
    (report_text {| incline := 1.23456; shift := 0;
                    incline_error := 0; shift_error := 0 |}).
Proof.
  apply (proj2 (proj2 (proj2 (proj2 get_report_deterministic)))).
  reflexivity.
Defined.

Close Scope string_scope.

(** ** Further properties of validation and mismatch processing *)

(** X8.  Validation comes first: a list with an element that is not a
    real number makes [get_lsm_description] raise the value error,
    whatever the lengths of the lists and the strategy. *)
Theorem get_lsm_description_validation_first
    (a o : list value) (s : strategy_arg) :
  In NonReal a \/ In NonReal o ->
  get_lsm_description a o s = Raise InputValueError.
Proof.
  intros H. apply get_lsm_description_not_real.
  destruct H as [H | H]; [ left | right ];
    (destruct (_is_valid_measurments _) eqn:V; [ | reflexivity ]);
    unfold _is_valid_measurments in V; rewrite forallb_forall in V;
    specialize (V NonReal H); discriminate.
Qed.

Lemma get_lsm_description_validation_first_witness :
  get_lsm_description [Real 1] [NonReal; Real 2] NotMember
  = Raise InputValueError.
Proof.
  apply get_lsm_description_validation_first.
  right. simpl. auto.
Defined.

Lemma exn_distinct :
  LengthError <> MismatchError /\ LengthError <> PolicyError
  /\ MismatchError <> PolicyError.
Proof. repeat split; intros H; vm_compute in H; discriminate. Qed.

(** Case analysis of a statement made of equivalences between outcomes
    and conditions on lengths. *)
Ltac outcome_cases :=
  repeat match goal with
         | |- _ /\ _ => split
         | |- _ <-> _ => split
         | |- _ -> _ => intro
         | H : exists _, _ |- _ => destruct H
         | H : _ /\ _ |- _ => destruct H
         | H : _ \/ _ |- _ => destruct H
         end;
  try lia; try congruence; try (eexists; reflexivity); auto.

(** X9.  The outcome of [_process_mismatch] in full: it returns exactly
    when both lists have at least three elements and either their lengths
    agree or the strategy is [CUT]; it raises the length error exactly
    when a list is shorter than three, the mismatch error exactly when
    the lengths (each at least three) differ under [FALL], and the policy
    error exactly when they differ under a strategy outside the
    enumeration. *)
Theorem _process_mismatch_outcome {A : Type} (a o : list A)
    (s : strategy_arg) :
  ((exists r, _process_mismatch a o s = Ok r)
   <-> (3 <= length a)%nat /\ (3 <= length o)%nat
       /\ (length a = length o \/ s = Member CUT))
  /\ (_process_mismatch a o s = Raise LengthError
      <-> (length a < 3)%nat \/ (length o < 3)%nat)
  /\ (_process_mismatch a o s = Raise MismatchError
      <-> (3 <= length a)%nat /\ (3 <= length o)%nat
          /\ length a <> length o /\ s = Member FALL)
  /\ (_process_mismatch a o s = Raise PolicyError
      <-> (3 <= length a)%nat /\ (3 <= length o)%nat
          /\ length a <> length o /\ s = NotMember).
Proof.
  destruct exn_distinct as [D1 [D2 D3]].
  destruct (Nat.lt_ge_cases (length a) 3) as [Ha | Ha];
    [ | destruct (Nat.lt_ge_cases (length o) 3) as [Ho | Ho] ].
  - rewrite _process_mismatch_short by (left; exact Ha). outcome_cases.
  - rewrite _process_mismatch_short by (right; exact Ho). outcome_cases.
  - destruct (Nat.eq_dec (length a) (length o)) as [E | E].
    + rewrite _process_mismatch_matched by assumption. outcome_cases.
    + rewrite _process_mismatch_differ by assumption.
      destruct s as [[|] |]; outcome_cases.
Qed.

(** X10.  Whatever the strategy, the lists [_process_mismatch] returns
    have one length, at least three, the smaller of the two input
    lengths; each is the leading part of the list it comes from; and
    processing them again, under any strategy, returns them as they
    are. *)
Theorem _process_mismatch_result {A : Type} (a o a' o' : list A)
    (s s' : strategy_arg) :
  _process_mismatch a o s = Ok (a', o') ->
  length a' = length o'
  /\ (3 <= length a')%nat
  /\ length a' = Nat.min (length a) (length o)
  /\ a' = firstn (length a') a
  /\ o' = firstn (length o') o
  /\ _process_mismatch a' o' s' = Ok (a', o').
Proof.
  intros H.
  pose proof (_process_mismatch_resolved a o s a' o' H) as [Hl Hn].
  assert (Hshape : a' = firstn (Nat.min (length a) (length o)) a
                   /\ o' = firstn (Nat.min (length a) (length o)) o).
  { unfold _process_mismatch in H.
    destruct ((length a <? 3)%nat || (length o <? 3)%nat);
      [ discriminate | ].
    destruct (Nat.eqb_spec (length a) (length o)) as [E | E];
      cbn [negb] in H.
    - inversion H; subst. rewrite E, Nat.min_id.
      split; [ rewrite <- E | ]; symmetry; apply firstn_all.
    - destruct s as [[|] |]; try discriminate.
      inversion H; subst. split; reflexivity. }
  destruct Hshape as [Ea Eo].
  assert (Hm : length a' = Nat.min (length a) (length o)).
  { rewrite Ea at 1. rewrite length_firstn. lia. }
  split; [ exact Hl | ]. split; [ exact Hn | ]. split; [ exact Hm | ].
  split; [ rewrite Hm; exact Ea | ].
  split; [ rewrite <- Hl, Hm; exact Eo | ].
  apply _process_mismatch_matched; assumption.
Qed.

Lemma _process_mismatch_result_witness :
  length [1; 2; 3]%nat = length [7; 8; 9]%nat
  /\ (3 <= length [1; 2; 3]%nat)%nat
  /\ length [1; 2; 3]%nat
     = Nat.min (length [1; 2; 3; 4]%nat) (length [7; 8; 9]%nat)
  /\ [1; 2; 3]%nat = firstn (length [1; 2; 3]%nat) [1; 2; 3; 4]%nat
  /\ [7; 8; 9]%nat = firstn (length [7; 8; 9]%nat) [7; 8; 9]%nat
  /\ _process_mismatch [1; 2; 3]%nat [7; 8; 9]%nat NotMember
     = Ok ([1; 2; 3]%nat, [7; 8; 9]%nat).
Proof.
  apply (_process_mismatch_result [1; 2; 3; 4]%nat [7; 8; 9]%nat
           [1; 2; 3]%nat [7; 8; 9]%nat (Member CUT) NotMember).
  reflexivity.
Defined.

(** X11.  Under [CUT], [get_lsm_description] fits the leading
    [min(len(abscissa), len(ordinates))] samples: on valid lists of at
    least three elements each it does what it does, under any strategy,
    on the two lists cut to the shorter length; what follows in the
    longer list has no effect. *)
Theorem get_lsm_description_cut
    (a o : list value) (s : strategy_arg) :
  _is_valid_measurments a = true ->
  _is_valid_measurments o = true ->
  (3 <= length a)%nat ->
  (3 <= length o)%nat ->
  let m := Nat.min (length a) (length o) in
  get_lsm_description a o (Member CUT)
  = get_lsm_description (firstn m a) (firstn m o) s.
Proof.
  intros Va Vo Ha Ho m.
  assert (Lm : (3 <= m)%nat) by (unfold m; lia).
  assert (La : length (firstn m a) = m)
    by (rewrite length_firstn; unfold m; lia).
  assert (Lo : length (firstn m o) = m)
    by (rewrite length_firstn; unfold m; lia).
  rewrite get_lsm_description_valid by assumption.
  rewrite (get_lsm_description_valid (firstn m a) (firstn m o))
    by (apply _is_valid_measurments_firstn; assumption).
  rewrite (_process_mismatch_matched (firstn m a) (firstn m o))
    by (rewrite ?La, ?Lo; auto).
  destruct (Nat.eq_dec (length a) (length o)) as [E | E].
  - rewrite _process_mismatch_matched by assumption.
    unfold m. rewrite E, Nat.min_id. rewrite firstn_all.
    rewrite <- E. rewrite firstn_all. reflexivity.
  - rewrite _process_mismatch_differ by assumption. reflexivity.
Qed.

Lemma get_lsm_description_cut_witness :
  get_lsm_description
    [Real 1; Real 2; Real 3; Real 9] [Real 2; Real 4; Real 6] (Member CUT)
  = get_lsm_description
      [Real 1; Real 2; Real 3] [Real 2; Real 4; Real 6] NotMember.
Proof.
  apply (get_lsm_description_cut
           [Real 1; Real 2; Real 3; Real 9] [Real 2; Real 4; Real 6]
           NotMember).
  - reflexivity.
  - reflexivity.
  - simpl; lia.
  - simpl; lia.
Defined.

(** ** What the numeric part can raise *)

(** Decomposition of a failed run: the step that raised. *)
Ltac raise_cases H :=
  repeat (cbv beta zeta in H;
          match type of H with
          | bind _ _ = Raise _ =>
              apply bind_Raise_inv in H;
              destruct H as [H | [? [_ H]]]
          end);
  cbv beta zeta in H;
  try discriminate H;
  try (apply truediv_Raise_inv in H);
  try (apply pow2_Raise_inv in H);
  try (apply math_sqrt_Raise_inv in H);
  try (apply comprehension_Raise_inv in H;
       destruct H as [? [_ H]]; apply pow2_Raise_inv in H).

(** On lists of one length the numeric part raises nothing but the
    errors of division, of squaring and of the square root. *)
Lemma coefficients_failures (xs ys : list float) (e : exn) :
  length xs = length ys ->
  coefficients xs ys = Raise e ->
  e = ZeroDivisionError \/ e = OverflowError \/ e = MathDomainError.
Proof.
  intros Hl H.
  rewrite coefficients_paired in H by exact Hl.
  rewrite _get_lsm_statistics_paired in H by lia.
  raise_cases H; auto.
Qed.

(** X3.  [get_lsm_description] raises nothing but the errors of its own
    checks (values that are not real, a length below 3, a length
    mismatch, an unknown strategy) and three errors of the arithmetic:
    [ZeroDivisionError] from a division, [OverflowError] from a square
    and the domain error of the square root; its index loops never run
    off a list.  Each of the three arithmetic errors does occur on valid
    lists of three samples. *)
Theorem get_lsm_description_failures :
  (forall (a o : list value) (s : strategy_arg) (e : exn),
      get_lsm_description a o s = Raise e ->
      e = InputValueError \/ e = LengthError \/ e = MismatchError
      \/ e = PolicyError \/ e = ZeroDivisionError \/ e = OverflowError
      \/ e = MathDomainError)
  /\ get_lsm_description
       [Real 1e9; Real 1000000001; Real 1000000002]
       [Real 1; Real 2; Real 4] (Member FALL)
     = Raise ZeroDivisionError
  /\ get_lsm_description
       [Real 1e200; Real 2e200; Real 3e200]
       [Real 1; Real 2; Real 3] (Member FALL)
     = Raise OverflowError
  /\ get_lsm_description
       [Real 0.1; Real 0.1; Real 0.10000000000000002]
       [Real 1; Real 2; Real 3] (Member FALL)
     = Raise MathDomainError.
Proof.
  split; [ | repeat split; vm_compute; reflexivity ].
  intros a o s e H.
  destruct (_is_valid_measurments a) eqn:Va;
    [ | rewrite get_lsm_description_not_real in H by (left; exact Va);
        inversion H; auto ].
  destruct (_is_valid_measurments o) eqn:Vo;
    [ | rewrite get_lsm_description_not_real in H by (right; exact Vo);
        inversion H; auto ].
  rewrite get_lsm_description_valid in H by assumption.
  apply bind_Raise_inv in H. destruct H as [H | [[a' o'] [Hp H]]].
  - apply _process_mismatch_failures in H. tauto.
  - apply _process_mismatch_resolved in Hp. destruct Hp as [Hl _].
    apply coefficients_failures in H; [ tauto | ].
    rewrite !length_map. exact Hl.
Qed.

Lemma get_lsm_description_failures_witness :
  LengthError = InputValueError \/ LengthError = LengthError
  \/ LengthError = MismatchError \/ LengthError = PolicyError
  \/ LengthError = ZeroDivisionError \/ LengthError = OverflowError
  \/ LengthError = MathDomainError.
Proof.
  apply (proj1 get_lsm_description_failures
           [Real 1; Real 2] [Real 1; Real 2] (Member FALL)).
  rewrite get_lsm_description_valid by reflexivity.
  rewrite _process_mismatch_short by (simpl; lia). reflexivity.
Defined.

(** ** Further properties of [get_lsm_lines] *)

Lemma _process_mismatch_FALL_inv {A : Type} (a o : list A)
    (r : list A * list A) :
  _process_mismatch a o (Member FALL) = Ok r ->
  r = (a, o) /\ length a = length o /\ (3 <= length a)%nat.
Proof.
  unfold _process_mismatch.
  destruct (Nat.ltb_spec (length a) 3); [ discriminate | ].
  destruct (Nat.ltb_spec (length o) 3); [ discriminate | ].
  destruct (Nat.eqb_spec (length a) (length o)) as [E | E];
    cbn [orb negb]; [ | discriminate ].
  intros H'. inversion H'. auto.
Qed.

(** X13.  When [get_lsm_lines] computes the description itself, the five
    sequences of the result have one length, at least three, and every
    ordinate is a real number: the lists have gone through the checks of
    [get_lsm_description]. *)
Theorem get_lsm_lines_fitted_shape
    (xs : list float) (o : list value) (lines : LSMLines) :
  get_lsm_lines xs o PyNone = Ok lines ->
  abscissa lines = xs
  /\ ordinates lines = o
  /\ (3 <= length (abscissa lines))%nat
  /\ length (ordinates lines) = length (abscissa lines)
  /\ length (line_predicted lines) = length (abscissa lines)
  /\ length (line_above lines) = length (abscissa lines)
  /\ length (line_under lines) = length (abscissa lines)
  /\ _is_valid_measurments (ordinates lines) = true.
Proof.
  unfold get_lsm_lines. intros H.
  destruct (get_lsm_description (map Real xs) o (Member FALL))
    as [d | e] eqn:Hd; cbn [bind] in H; [ | discriminate ].
  inversion H; subst lines; clear H.
  cbn [abscissa ordinates line_predicted line_above line_under].
  rewrite !length_map.
  assert (Vo : _is_valid_measurments o = true).
  { destruct (_is_valid_measurments o) eqn:V; [ reflexivity | ].
    rewrite get_lsm_description_not_real in Hd by (right; exact V).
    discriminate. }
  rewrite get_lsm_description_valid in Hd
    by (try apply _is_valid_measurments_Real; assumption).
  apply bind_Ok_inv in Hd. destruct Hd as [r [Hp _]].
  apply _process_mismatch_FALL_inv in Hp. destruct Hp as [_ [Hl Hn]].
  rewrite length_map in Hl, Hn.
  repeat split; auto.
Qed.

Lemma get_lsm_lines_fitted_shape_witness :
  (3 <= length [1; 2; 3])%nat
  /\ length [Real 2; Real 4; Real 6] = length [1; 2; 3].
Proof.
  destruct (get_lsm_lines_fitted_shape [1; 2; 3] [Real 2; Real 4; Real 6]
              {| abscissa := [1; 2; 3];
                 ordinates := [Real 2; Real 4; Real 6];
                 line_predicted := [2; 4; 6];
                 line_above := [2; 4; 6];
                 line_under := [2; 4; 6] |})
    as [_ [_ [H1 [H2 _]]]].
  - vm_compute. reflexivity.
  - split; [ exact H1 | exact H2 ].
Defined.

(** ** Further properties of [_get_lsm_statistics] *)



(** ** The log *)

(** The events and the outcome of [_process_mismatch], case by case. *)
Lemma logged_process_mismatch_cases {A : Type} (a o : list A)
    (s : strategy_arg) :
  Logged._process_mismatch a o s
  = if (length a <? 3)%nat || (length o <? 3)%nat then
      ([(error, "A lenght of arguments is less than 3"%string)],
       Raise LengthError)
    else if (length a =? length o)%nat then ([], Ok (a, o))
    else
      match s with
      | Member FALL =>
          ([(error, "Lenghts of the arguments are not equal"%string)],
           Raise MismatchError)
      | Member CUT =>
          ([(warning,
             ("Lenghts of the arguments are not equal,"
                ++ replicate 38 " " ++ "so longest list will be cut")%string)],
           Ok (firstn (Nat.min (length a) (length o)) a,
               firstn (Nat.min (length a) (length o)) o))
      | NotMember =>
          ([(error,
             ("Unknown data in argument " ++ dquote ++ "mismatch_data"
                ++ dquote)%string)],
           Raise PolicyError)
      end.
Proof.
  unfold Logged._process_mismatch.
  destruct ((length a <? 3)%nat || (length o <? 3)%nat); [ reflexivity | ].
  destruct (length a =? length o)%nat; cbn [negb]; [ reflexivity | ].
  destruct s as [[|] |]; reflexivity.
Qed.

(** The events and the outcome of [get_lsm_description], in terms of
    those of [_process_mismatch] and of the numeric part. *)
Lemma logged_get_lsm_description_cases
    (a o : list value) (s : strategy_arg) :
  Logged.get_lsm_description a o s
  = if negb (_is_valid_measurments a) || negb (_is_valid_measurments o)
    then ([(info, "Validating of data"%string);
           (error, "There are nonreal values in input data"%string)],
          Raise InputValueError)
    else
      match Logged._process_mismatch a o s with
      | (l, Ok (a', o')) =>
          match coefficients (map as_real a') (map as_real o') with
          | Ok d =>
              ((info, "Validating of data"%string)
                 :: l ++ [(info, "Validating passed successful"%string);
                          (info, "Calculating coefficients started"%string);
                          (info,
                           "Calculating coefficients completed"%string)],
               Ok d)
          | Raise e =>
              ((info, "Validating of data"%string)
                 :: l ++ [(info, "Validating passed successful"%string);
                          (info, "Calculating coefficients started"%string)],
               Raise e)
          end
      | (l, Raise e) => ((info, "Validating of data"%string) :: l, Raise e)
      end.
Proof.
  unfold Logged.get_lsm_description.
  destruct (negb (_is_valid_measurments a)
            || negb (_is_valid_measurments o)); [ reflexivity | ].
  destruct (Logged._process_mismatch a o s) as [l [[a' o'] | e]];
    [ | reflexivity ].
  unfold Logged.bind, Logged.log, Logged.lift, Logged.ret.
  cbn [fst snd app].
  destruct (coefficients (map as_real a') (map as_real o'));
    cbn [fst snd app]; rewrite ?app_nil_r; reflexivity.
Qed.

(** Two exceptions that differ cannot be equal. *)
Ltac exn_clash :=
  match goal with
  | H : _ = _ :> exn |- _ => vm_compute in H; discriminate H
  end.

(** The log of a call whose lists have passed the checks, with [l] the
    events of the mismatch processing. *)
Lemma logged_numeric_part (xs ys : list float) (l : list event) :
  length xs = length ys ->
  let run :=
    match coefficients xs ys with
    | Ok d =>
        ((info, "Validating of data"%string)
           :: l ++ [(info, "Validating passed successful"%string);
                    (info, "Calculating coefficients started"%string);
                    (info, "Calculating coefficients completed"%string)],
         Ok d)
    | Raise e =>
        ((info, "Validating of data"%string)
           :: l ++ [(info, "Validating passed successful"%string);
                    (info, "Calculating coefficients started"%string)],
         Raise e)
    end in
  (forall d, snd run = Ok d ->
             fst run
             = (info, "Validating of data"%string)
                 :: l ++ [(info, "Validating passed successful"%string);
                          (info, "Calculating coefficients started"%string);
                          (info,
                           "Calculating coefficients completed"%string)])
  /\ (forall e, snd run = Raise e ->
                e = InputValueError \/ e = LengthError
                \/ e = MismatchError \/ e = PolicyError ->
                exists msg,
                  fst run
                  = [(info, "Validating of data"%string); (error, msg)])
  /\ (forall e, snd run = Raise e ->
                e = ZeroDivisionError \/ e = OverflowError
                \/ e = MathDomainError ->
                fst run
                = (info, "Validating of data"%string)
                    :: l ++ [(info, "Validating passed successful"%string);
                             (info,
                              "Calculating coefficients started"%string)]).
Proof.
  intros Hl. cbv zeta.
  destruct (coefficients xs ys) as [d | e0] eqn:Hc; cbn [fst snd].
  - split; [ reflexivity | ]. split; intros e He; discriminate.
  - apply coefficients_failures in Hc; [ | exact Hl ].
    split; [ discriminate | ]. split.
    + intros e He Hown. inversion He; subst e0. exfalso.
      destruct Hc as [F | [F | F]];
        destruct Hown as [G | [G | [G | G]]];
        rewrite F in G; exn_clash.
    + reflexivity.
Qed.

(** X21.  What [get_lsm_description] logs.  Every call first logs that
    validation starts.  A call that returns has logged, after that, the
    truncation warning exactly when the lengths differ, then three
    informations, the last that the calculation is completed, and no
    error.  A call that raises one of the module's own four errors has
    logged one error, just before raising, and nothing else.  A call
    that raises an error of the arithmetic ([ZeroDivisionError],
    [OverflowError] or the domain error of the square root) has logged
    no error at all: its log ends with the start of the calculation. *)
Theorem logged_get_lsm_description_log
    (a o : list value) (s : strategy_arg) :
  let run := Logged.get_lsm_description a o s in
  let validating := (info, "Validating of data"%string) in
  let passed := (info, "Validating passed successful"%string) in
  let started := (info, "Calculating coefficients started"%string) in
  let completed := (info, "Calculating coefficients completed"%string) in
  let cut :=
    if (length a =? length o)%nat then []
    else [(warning,
           ("Lenghts of the arguments are not equal,"
              ++ replicate 38 " " ++ "so longest list will be cut")%string)]
  in
  (forall d, snd run = Ok d ->
             fst run = validating :: cut ++ [passed; started; completed])
  /\ (forall e, snd run = Raise e ->
                e = InputValueError \/ e = LengthError
                \/ e = MismatchError \/ e = PolicyError ->
                exists msg, fst run = [validating; (error, msg)])
  /\ (forall e, snd run = Raise e ->
                e = ZeroDivisionError \/ e = OverflowError
                \/ e = MathDomainError ->
                fst run = validating :: cut ++ [passed; started]).
Proof.
  cbv zeta. rewrite logged_get_lsm_description_cases.
  assert (Own : forall (l : list event) (msg : string) (e0 : exn),
             e0 = InputValueError \/ e0 = LengthError
             \/ e0 = MismatchError \/ e0 = PolicyError ->
             forall cut : list event,
             let run := ([(info, "Validating of data"%string); (error, msg)],
                         @Raise LSMDescription e0) in
             (forall d, snd run = Ok d ->
                  fst run
                  = (info, "Validating of data"%string)
                      :: cut ++ [(info, "Validating passed successful"%string);
                                 (info,
                                  "Calculating coefficients started"%string);
                                 (info,
                                  "Calculating coefficients completed"%string)])
             /\ (forall e, snd run = Raise e ->
                     e = InputValueError \/ e = LengthError
                     \/ e = MismatchError \/ e = PolicyError ->
                     exists msg',
                       fst run
                       = [(info, "Validating of data"%string);
                          (error, msg')])
             /\ (forall e, snd run = Raise e ->
                     e = ZeroDivisionError \/ e = OverflowError
                     \/ e = MathDomainError ->
                     fst run
                     = (info, "Validating of data"%string)
                         :: cut
                         ++ [(info, "Validating passed successful"%string);
                             (info,
                              "Calculating coefficients started"%string)])).
  { intros l msg e0 Hown cut. cbv zeta. cbn [fst snd].
    split; [ discriminate | ]. split.
    - intros e _ _. eexists. reflexivity.
    - intros e He Har. inversion He; subst e0. exfalso.
      destruct Har as [F | [F | F]];
        destruct Hown as [G | [G | [G | G]]];
        rewrite F in G; exn_clash. }
  destruct (negb (_is_valid_measurments a)
            || negb (_is_valid_measurments o)).
  { apply (Own []); auto. }
  rewrite logged_process_mismatch_cases.
  destruct ((length a <? 3)%nat || (length o <? 3)%nat) eqn:Hshort.
  { apply (Own []); auto. }
  apply orb_false_iff in Hshort. destruct Hshort as [Ha Ho].
  apply Nat.ltb_ge in Ha. apply Nat.ltb_ge in Ho.
  destruct (Nat.eqb_spec (length a) (length o)) as [E | E].
  - apply (logged_numeric_part (map as_real a) (map as_real o) []).
    rewrite !length_map. exact E.
  - destruct s as [[|] |].
    + apply (Own []); auto.
    + apply (logged_numeric_part
               (map as_real (firstn (Nat.min (length a) (length o)) a))
               (map as_real (firstn (Nat.min (length a) (length o)) o))).
      rewrite !length_map, !length_firstn. lia.
    + apply (Own []); auto.
Qed.

Lemma logged_get_lsm_description_log_witness :
  fst (Logged.get_lsm_description
         [Real 0.1; Real 0.1; Real 0.1] [Real 1; Real 2; Real 3; Real 4]
         (Member CUT))
  = [ (info, "Validating of data"%string);
      (warning,
       ("Lenghts of the arguments are not equal,"
          ++ replicate 38 " " ++ "so longest list will be cut")%string);
      (info, "Validating passed successful"%string);
      (info, "Calculating coefficients started"%string) ].
Proof.
  apply (proj2 (proj2 (logged_get_lsm_description_log
           [Real 0.1; Real 0.1; Real 0.1] [Real 1; Real 2; Real 3; Real 4]
           (Member CUT)))
           MathDomainError).
  - vm_compute. reflexivity.
  - right. right. reflexivity.
Defined.
